(** * gestao-pad: the case ledger, the deadline count and the consolidated report

    A shallow embedding of [app.py].  The record store is modelled as three
    tables of rows with integer keys and foreign keys (the way SQLAlchemy maps
    [Processo], [Andamento] and [Documento] onto SQLite), the upload and report
    folders as finite maps from file names to contents, and every route as a
    function from the request and the state of the application to a response
    and a new state.  Authentication ([login_required]) and HTML rendering are
    outside the model: every route is the authenticated path, and a rendered
    page is represented by the name of its template.

    Strings are byte strings (UTF-8); dates are proleptic ordinals as Python's
    [date.toordinal] numbers them; a naive [datetime] is the number of
    microseconds since the start of ordinal day 0. *)

From Stdlib Require Import ZArith Ascii Permutation Sorted.
From stdpp Require Import base option list strings gmap pretty.

Open Scope Z_scope.

(** ** Strings as the code uses them *)

Module Str.

(** [c.lower()] on one character of the ASCII range; bytes of multi-byte
    UTF-8 sequences are 128 or more and are left as they are. *)
Definition lower_char (c : ascii) : ascii :=
  let n := nat_of_ascii c in
  if (65 <=? n)%nat && (n <=? 90)%nat then ascii_of_nat (n + 32) else c.

(** [s.lower()]. *)
Fixpoint lower (s : string) : string :=
  match s with
  | EmptyString => EmptyString
  | String c t => String (lower_char c) (lower t)
  end.

(** [s.endswith(suf)]: some tail of [s] is [suf]. *)
Fixpoint endswith (s suf : string) : bool :=
  if String.eqb s suf then true
  else match s with
       | EmptyString => false
       | String _ t => endswith t suf
       end.

(** [s.replace(a, b)] for single characters [a] and [b]. *)
Fixpoint replace_char (a b : ascii) (s : string) : string :=
  match s with
  | EmptyString => EmptyString
  | String c t => String (if Ascii.eqb c a then b else c) (replace_char a b t)
  end.

(** The double-quote character (code 34), used inside two flashed messages. *)
Definition aspas : string := String (ascii_of_nat 34) EmptyString.

(** [f"{n:03d}"] for a natural number: decimal digits, zero padded on the
    left to a width of three, never truncated. *)
Definition zeros (k : nat) : string :=
  Nat.iter k (String "0"%char) EmptyString.

Definition format_03d (n : nat) : string :=
  let d := pretty n in
  zeros (3 - String.length d) +:+ d.

(** The empty string is Python's only falsy string. *)
Definition truthy (s : string) : bool := negb (String.eqb s EmptyString).

End Str.

(** ** Dates *)

Module Data.

Definition datetime := Z.
Definition date := Z.

Definition usec_por_dia : Z := 86400000000.

(** [dt.date()] *)
Definition date_of (dt : datetime) : date := dt `div` usec_por_dia.

(** [datetime.strptime(s, '%Y-%m-%d')] once it has succeeded on the text of
    day [d]: midnight of that day. *)
Definition meia_noite (d : date) : datetime := d * usec_por_dia.

(** [date.min.toordinal()] and [date.max.toordinal()] (years 1 to 9999). *)
Definition ord_min : Z := 1.
Definition ord_max : Z := 3652059.

Definition valida (d : date) : bool := (ord_min <=? d) && (d <=? ord_max).

(** [timedelta(days=n)] raises [OverflowError] beyond 999999999 days. *)
Definition timedelta_days (n : Z) : option Z :=
  if (-999999999 <=? n) && (n <=? 999999999) then Some n else None.

(** [d + timedelta(days=n)]: [None] stands for the [OverflowError] raised
    either by the [timedelta] or by a result outside years 1 to 9999. *)
Definition mais_dias (d : date) (n : Z) : option date :=
  td ← timedelta_days n;
  if valida (d + td) then Some (d + td) else None.

End Data.

(** ** The workflow table *)

Definition WORKFLOWS : gmap string (list string) :=
  list_to_map
    [ ("PAD", ["Autuado"; "Instrução"; "Relatório Final"; "Julgamento"; "Finalizado"]);
      ("Sindicância", ["Autuado"; "Apuração"; "Relatório Final"; "Arquivado"]);
      ("Tomada de Conta Especial",
         ["Instauração"; "Citação"; "Defesa"; "Relatório"; "Julgamento"; "Finalizado"]);
      ("Processo Administrativo Especial",
         ["Autuação"; "Instrução"; "Decisão"; "Finalizado"]) ].

(** [WORKFLOWS.get(tipo, ["Autuado"])] *)
Definition etapas_de (tipo : string) : list string :=
  default ["Autuado"] (WORKFLOWS !! tipo).

(** ** The models of the database *)

Module Processo.
Record t := mk {
  id : Z;
  numero_processo : string;
  portaria : option string;
  membros_comissao : option string;
  tipo : string;
  servidor_a_apurar : bool;
  servidor_investigado : option string;
  servidor_cargo : option string;
  servidor_matricula : option string;
  resumo_fatos : string;
  status : string;
  data_autuacao : Data.datetime;
  prazo_inicial_dias : option Z;
  prorrogacao_dias : option Z;
  data_atualizacao : Data.datetime
}.

(** [processo.status = etapa] as the commit writes it: a row whose status
    changes is updated, and [onupdate] refreshes its [data_atualizacao]; a
    row that already has the status is not touched. *)
Definition com_status (etapa : string) (agora : Data.datetime) (p : t) : t :=
  if String.eqb (status p) etapa then p
  else
    mk (id p) (numero_processo p) (portaria p) (membros_comissao p) (tipo p)
       (servidor_a_apurar p) (servidor_investigado p) (servidor_cargo p)
       (servidor_matricula p) (resumo_fatos p) etapa (data_autuacao p)
       (prazo_inicial_dias p) (prorrogacao_dias p) agora.
End Processo.

Module Andamento.
Record t := mk {
  id : Z;
  etapa : string;
  descricao : option string;
  data : Data.datetime;
  processo_id : Z
}.
End Andamento.

Module Documento.
Record t := mk {
  id : Z;
  filename : string;
  andamento_id : Z
}.
End Documento.

(** The three tables, rows in the order of their insertion. *)
Record base := mk_base {
  processos : list Processo.t;
  andamentos : list Andamento.t;
  documentos : list Documento.t
}.

(** The key SQLite gives a new row of a table whose key is an
    [INTEGER PRIMARY KEY]: one more than the largest key in use. *)
Definition proximo_id (ids : list Z) : Z := 1 + foldr Z.max 0 ids.

(** [Processo.query.get(processo_id)] *)
Definition get_processo (b : base) (pid : Z) : option Processo.t :=
  find (fun p => Processo.id p =? pid) (processos b).

(** [Processo.query.filter_by(numero_processo=n).first()] *)
Definition filter_by_numero (b : base) (n : string) : option Processo.t :=
  find (fun p => String.eqb (Processo.numero_processo p) n) (processos b).

(** The relationship [processo.andamentos] *)
Definition andamentos_de (b : base) (pid : Z) : list Andamento.t :=
  filter (fun a => Andamento.processo_id a = pid) (andamentos b).

(** The relationship [andamento.documentos] *)
Definition documentos_de (b : base) (aid : Z) : list Documento.t :=
  filter (fun d => Documento.andamento_id d = aid) (documentos b).

(** ** Files and pages *)

(** A text box laid over a page by [page.insert_textbox]. *)
Inductive alinhamento :=
  TEXT_ALIGN_LEFT | TEXT_ALIGN_CENTER | TEXT_ALIGN_RIGHT | TEXT_ALIGN_JUSTIFY.

Record caixa := mk_caixa {
  texto : string;
  fontsize : Z;
  fontname : string;
  align : alinhamento
}.

(** A page: what it shows, and the text boxes laid over it so far. *)
Record pagina := mk_pagina {
  conteudo : string;
  caixas : list caixa
}.

(** The content of a stored file: a PDF that [pypdf] can read, page by page,
    or bytes it cannot read. *)
Inductive ficheiro :=
| Pdf (paginas : list pagina)
| Ilegivel (bytes : string).

(** An uploaded file as [request.files] hands it over. *)
Module FileStorage.
Record t := mk {
  filename : string;
  stream : ficheiro
}.
End FileStorage.

(** ** Requests, responses and the state of the application *)

Inductive rota :=
| Index
| AdicionarProcesso
| DetalhesProcesso (processo_id : Z).

Inductive excecao :=
| ValueError | IndexError | IntegrityError | OverflowError | PdfError.

Inductive corpo :=
| Template (nome : string)
| Redirect (alvo : rota)
| NotFound
| InternalError (e : excecao).

(** A response, with the messages flashed (category, text) while it was
    produced. *)
Record resposta := mk_resposta {
  corpo_de : corpo;
  flashed : list (string * string)
}.

Record mundo := mk_mundo {
  db : base;
  uploads : gmap string ficheiro;
  reports : gmap string (list pagina)
}.

Definition com_db (b : base) (m : mundo) : mundo :=
  mk_mundo b (uploads m) (reports m).

(** The clock as one request reads it: [utcnow] fills the column defaults of
    the rows the request inserts, and [now_strftime k] is the [k]-th reading of
    [datetime.now().strftime('%Y%m%d%H%M%S')]. *)
Record relogio := mk_relogio {
  utcnow : Data.datetime;
  now_strftime : nat -> string
}.

(** The form of [adicionar_processo] after Flask has read it: the keys read
    with [request.form[...]] are present, [data_autuacao] is the day that
    [strptime] parsed ([None] when it raises [ValueError]), and the two
    integers are read with [type=int]. *)
Record FormProcesso := mk_form_processo {
  f_numero_processo : string;
  f_data_autuacao : option Data.date;
  f_tipo : string;
  f_resumo_fatos : string;
  f_portaria : option string;
  f_membro_nome : list string;
  f_membro_funcao : list string;
  f_servidor_a_apurar : bool;
  f_servidor_investigado : option string;
  f_servidor_cargo : option string;
  f_servidor_matricula : option string;
  f_prazo_inicial_dias : option Z;
  f_prorrogacao_dias : Z
}.

Inductive pedido (F : Type) :=
| GET
| POST (form : F).
Arguments GET {F}.
Arguments POST {F} form.

Record FormAvancar := mk_form_avancar {
  f_nova_etapa : option string;
  f_descricao : option string;
  f_documentos : list FileStorage.t
}.

Section Rotas.

(** [json.dumps(..., ensure_ascii=False)] on a list of name and role
    records. *)
Variable json_dumps : list (string * string) -> string.

Definition _processar_membros_comissao (f : FormProcesso) : string :=
  json_dumps
    (filter (fun nf => Str.truthy nf.1 = true)
            (zip (f_membro_nome f) (f_membro_funcao f))).

(** *** [adicionar_processo] *)

Definition msg_numero_existe (n : string) : string :=
  "Erro: O número de processo " +:+ Str.aspas +:+ n +:+ Str.aspas +:+ " já existe.".

Definition numero_duplicado (n : string) : resposta :=
  mk_resposta (Redirect AdicionarProcesso) [("danger", msg_numero_existe n)].

Definition processo_adicionado : resposta :=
  mk_resposta (Redirect Index) [("success", "Processo adicionado com sucesso!")].

Definition levanta (e : excecao) : resposta := mk_resposta (InternalError e) [].

(** From the query on the submitted number to the two pending rows: the
    day of [data_autuacao] and the initial stage, or the response that ends
    the request early. *)
Definition verifica (f : FormProcesso) (b : base) : resposta + (Data.date * string) :=
  match filter_by_numero b (f_numero_processo f) with
  | Some _ => inl (numero_duplicado (f_numero_processo f))
  | None =>
      match f_data_autuacao f with
      | None => inl (levanta ValueError)
      | Some dia =>
          match head (etapas_de (f_tipo f)) with
          | None => inl (levanta IndexError)
          | Some status_inicial => inr (dia, status_inicial)
          end
      end
  end.

Definition novo_processo (f : FormProcesso) (dia : Data.date)
    (status_inicial : string) (agora : Data.datetime) (pid : Z) : Processo.t :=
  {| Processo.id := pid;
     Processo.numero_processo := f_numero_processo f;
     Processo.tipo := f_tipo f;
     Processo.resumo_fatos := f_resumo_fatos f;
     Processo.data_autuacao := Data.meia_noite dia;
     Processo.portaria := f_portaria f;
     Processo.membros_comissao := Some (_processar_membros_comissao f);
     Processo.status := status_inicial;
     Processo.servidor_a_apurar := f_servidor_a_apurar f;
     Processo.servidor_investigado := f_servidor_investigado f;
     Processo.servidor_cargo := f_servidor_cargo f;
     Processo.servidor_matricula := f_servidor_matricula f;
     Processo.prazo_inicial_dias := f_prazo_inicial_dias f;
     Processo.prorrogacao_dias := Some (f_prorrogacao_dias f);
     Processo.data_atualizacao := agora |}.

Definition primeiro_andamento (status_inicial : string)
    (agora : Data.datetime) (aid pid : Z) : Andamento.t :=
  {| Andamento.id := aid;
     Andamento.etapa := status_inicial;
     Andamento.descricao := Some "Processo instaurado.";
     Andamento.data := agora;
     Andamento.processo_id := pid |}.

(** [db.session.add(novo_processo); db.session.add(primeiro_andamento);
    db.session.commit()]: the column [numero_processo] is [unique], so the
    insert is refused ([None], an [IntegrityError]) when a row already has
    the number. *)
Definition commit_processo (f : FormProcesso) (dia : Data.date)
    (status_inicial : string) (agora : Data.datetime) (b : base) : option base :=
  if existsb (fun p => String.eqb (Processo.numero_processo p) (f_numero_processo f))
             (processos b)
  then None
  else
    let pid := proximo_id (Processo.id <$> processos b) in
    let aid := proximo_id (Andamento.id <$> andamentos b) in
    Some (mk_base
            (processos b ++ [novo_processo f dia status_inicial agora pid])
            (andamentos b ++ [primeiro_andamento status_inicial agora aid pid])
            (documentos b)).

Definition grava (f : FormProcesso) (dia : Data.date) (status_inicial : string)
    (agora : Data.datetime) (b : base) : resposta * base :=
  match commit_processo f dia status_inicial agora b with
  | None => (levanta IntegrityError, b)
  | Some b' => (processo_adicionado, b')
  end.

Definition adicionar_processo (r : relogio) (req : pedido FormProcesso)
    (m : mundo) : resposta * mundo :=
  match req with
  | GET => (mk_resposta (Template "adicionar_processo.html") [], m)
  | POST f =>
      match verifica f (db m) with
      | inl resp => (resp, m)
      | inr (dia, status_inicial) =>
          let '(resp, b') := grava f dia status_inicial (utcnow r) (db m) in
          (resp, com_db b' m)
      end
  end.

(** *** [excluir_processo] *)

(** [db.session.delete(processo)] with the cascades of the two
    relationships: the entries of the case go with it, and the documents of
    those entries with them. *)
Definition delete_processo (b : base) (pid : Z) : base :=
  let seus := andamentos_de b pid in
  mk_base
    (filter (fun p => Processo.id p ≠ pid) (processos b))
    (filter (fun a => Andamento.processo_id a ≠ pid) (andamentos b))
    (filter (fun d => Documento.andamento_id d ∉ (Andamento.id <$> seus)) (documentos b)).

Definition excluir_processo (processo_id : Z) (m : mundo) : resposta * mundo :=
  match get_processo (db m) processo_id with
  | None => (mk_resposta NotFound [], m)
  | Some processo =>
      (mk_resposta (Redirect Index) [("success", "Processo excluído com sucesso.")],
       com_db (delete_processo (db m) (Processo.id processo)) m)
  end.

End Rotas.

Section Andamentos.

(** werkzeug's [secure_filename]. *)
Variable secure_filename : string -> string.

(** *** [avancar_etapa] *)

Definition msg_ignorado (nome : string) : string :=
  "Ficheiro " +:+ Str.aspas +:+ nome +:+ Str.aspas
    +:+ " ignorado. Apenas PDFs são permitidos.".

Definition msg_avancado (etapa : string) : string :=
  "Processo avançado para a etapa: " +:+ etapa +:+ ".".

(** What the loop over the uploaded files has done so far: the upload
    folder, the file names of the documents added to the session (oldest
    first) and the messages flashed. *)
Record envio := mk_envio {
  pasta : gmap string ficheiro;
  nomes : list string;
  avisos : list (string * string)
}.

(** [file.filename.lower().endswith('.pdf')] *)
Definition e_pdf (nome : string) : bool :=
  Str.endswith (Str.lower nome) ".pdf".

(** One turn of [for file in files].  [bool(file)] is the truth value of
    its file name. *)
Definition trata_ficheiro (r : relogio) (e : envio) (file : FileStorage.t) : envio :=
  let fn := FileStorage.filename file in
  if Str.truthy fn && negb (String.eqb fn EmptyString) then
    if negb (e_pdf fn) then
      mk_envio (pasta e) (nomes e) (avisos e ++ [("warning", msg_ignorado fn)])
    else
      let filename :=
        secure_filename (now_strftime r (length (nomes e)) +:+ "_" +:+ fn) in
      mk_envio (<[filename := FileStorage.stream file]> (pasta e))
               (nomes e ++ [filename]) (avisos e)
  else e.

Definition trata_ficheiros (r : relogio) (e : envio) (files : list FileStorage.t) : envio :=
  foldl (trata_ficheiro r) e files.

(** The rows of [Documento] the commit inserts for the new entry, keyed one
    after the other. *)
Definition insere_documentos (aid : Z) (nomes : list string)
    (docs : list Documento.t) : list Documento.t :=
  foldl (fun docs nome =>
           docs ++ [Documento.mk (proximo_id (Documento.id <$> docs)) nome aid])
        docs nomes.

Definition avancar_etapa (r : relogio) (processo_id : Z) (f : FormAvancar)
    (m : mundo) : resposta * mundo :=
  match get_processo (db m) processo_id with
  | None => (mk_resposta NotFound [], m)
  | Some processo =>
      match f_nova_etapa f with
      | Some nova_etapa =>
          if Str.truthy nova_etapa then
            let b := db m in
            let aid := proximo_id (Andamento.id <$> andamentos b) in
            let novo_andamento :=
              Andamento.mk aid nova_etapa (f_descricao f) (utcnow r) processo_id in
            let e := trata_ficheiros r (mk_envio (uploads m) [] []) (f_documentos f) in
            let b' :=
              mk_base
                ((fun p => if decide (Processo.id p = Processo.id processo)
                           then Processo.com_status nova_etapa (utcnow r) p
                           else p) <$> processos b)
                (andamentos b ++ [novo_andamento])
                (insere_documentos aid (nomes e) (documentos b)) in
            (mk_resposta (Redirect (DetalhesProcesso processo_id))
                         (avisos e ++ [("success", msg_avancado nova_etapa)]),
             mk_mundo b' (pasta e) (reports m))
          else
            (mk_resposta (Redirect (DetalhesProcesso processo_id))
                         [("danger", "É necessário selecionar uma nova etapa.")], m)
      | None =>
          (mk_resposta (Redirect (DetalhesProcesso processo_id))
                       [("danger", "É necessário selecionar uma nova etapa.")], m)
      end
  end.

End Andamentos.

(** ** The dashboard: [index] *)

Definition encerrado (status : string) : bool :=
  bool_decide (status ∈ ["Finalizado"; "Arquivado"]).

(** The truth value of a nullable integer column: [None] and [0] are falsy. *)
Definition int_truthy (o : option Z) : bool :=
  match o with
  | Some n => negb (n =? 0)
  | None => false
  end.

(** [x or 0] on a nullable integer column. *)
Definition or_zero (o : option Z) : Z :=
  if int_truthy o then default 0 o else 0.

(** The body of the loop of [index] for one case: [Some true] when the case is
    counted, [Some false] when it is not, [None] when the date arithmetic
    raises [OverflowError]. *)
Definition prazo_vencendo (hoje limite_vencimento : Data.date) (p : Processo.t)
    : option bool :=
  if negb (encerrado (Processo.status p)) && int_truthy (Processo.prazo_inicial_dias p)
  then
    let prazo_total :=
      default 0 (Processo.prazo_inicial_dias p) + or_zero (Processo.prorrogacao_dias p) in
    data_final ← Data.mais_dias (Data.date_of (Processo.data_autuacao p)) prazo_total;
    Some ((hoje <=? data_final) && (data_final <? limite_vencimento))
  else Some false.

Fixpoint conta_prazos (hoje limite_vencimento : Data.date) (ps : list Processo.t)
    : option nat :=
  match ps with
  | [] => Some 0%nat
  | p :: ps' =>
      c ← prazo_vencendo hoje limite_vencimento p;
      n ← conta_prazos hoje limite_vencimento ps';
      Some ((if c : bool then 1 else 0) + n)%nat
  end.

Record totais := mk_totais {
  total : nat;
  em_andamento : nat;
  finalizados : nat;
  prazos_vencendo : nat
}.

(** The totals [index] hands to its template, for [hoje = utcnow().date()];
    [None] when an [OverflowError] escapes. *)
Definition index (hoje : Data.date) (b : base) : option totais :=
  let total_processos := length (processos b) in
  let finalizados := length (filter (fun p => encerrado (Processo.status p) = true) (processos b)) in
  let em_andamento := (total_processos - finalizados)%nat in
  limite_vencimento ← Data.mais_dias hoje 7;
  prazos ← conta_prazos hoje limite_vencimento (processos b);
  Some (mk_totais total_processos em_andamento finalizados prazos).

(** ** The consolidated report: [generate_pdf_task] *)

(** [sorted(l, key=lambda x: x.data)]: Python's sort is stable, and a stable
    sort has one possible result, which insertion from the right computes. *)
Fixpoint insere_por_data (a : Andamento.t) (l : list Andamento.t) : list Andamento.t :=
  match l with
  | [] => [a]
  | b :: l' =>
      if Andamento.data a <=? Andamento.data b then a :: b :: l'
      else b :: insere_por_data a l'
  end.

Definition sorted_por_data (l : list Andamento.t) : list Andamento.t :=
  foldr insere_por_data [] l.

(** The documents of a case in the order the two nested loops visit them. *)
Definition documentos_em_ordem (b : base) (pid : Z) : list Documento.t :=
  a ← sorted_por_data (andamentos_de b pid);
  documentos_de b (Andamento.id a).

(** [if os.path.exists(caminho_doc): merger.append(caminho_doc)]: no page for
    a missing file, the pages of a readable one, an exception ([None]) for a
    file [pypdf] cannot read. *)
Definition paginas_do_documento (pasta : gmap string ficheiro) (d : Documento.t)
    : option (list pagina) :=
  match pasta !! Documento.filename d with
  | None => Some []
  | Some (Pdf paginas) => Some paginas
  | Some (Ilegivel _) => None
  end.

(** [page.insert_textbox(page.rect, f"Fl. {page_num + 1:03d}", fontsize=10,
    fontname="helv", color=(0, 0, 0), align=fitz.TEXT_ALIGN_RIGHT)] *)
Definition folio (page_num : nat) : caixa :=
  mk_caixa ("Fl. " +:+ Str.format_03d (page_num + 1)) 10 "helv" TEXT_ALIGN_RIGHT.

Definition carimba (page_num : nat) (page : pagina) : pagina :=
  mk_pagina (conteudo page) (caixas page ++ [folio page_num]).

Inductive desfecho :=
| SemProcesso
| Gerado (final_filename : string)
| Falhou (e : excecao).

Section Relatorio.

(** The pages of the cover: [HTML(string=render_template('capa_processo.html',
    processo=processo)).write_pdf()]. *)
Variable render_capa : Processo.t -> list pagina.

(** Steps 1 to 3: the merged document before it is numbered. *)
Definition merge (b : base) (pasta : gmap string ficheiro) (processo : Processo.t)
    : option (list pagina) :=
  docs ← mapM (paginas_do_documento pasta) (documentos_em_ordem b (Processo.id processo));
  Some (render_capa processo ++ concat docs).

Definition final_filename_de (processo : Processo.t) (timestamp_str : string) : string :=
  "processo_" +:+ Str.replace_char "/" "-" (Processo.numero_processo processo)
    +:+ "_" +:+ timestamp_str +:+ ".pdf".

(** The task, for [timestamp_str = datetime.now().strftime('%Y%m%d_%H%M%S')].
    Every exception is caught and leaves the report folder as it was. *)
Definition generate_pdf_task (timestamp_str : string) (processo_id : Z) (m : mundo)
    : desfecho * mundo :=
  match get_processo (db m) processo_id with
  | None => (SemProcesso, m)
  | Some processo =>
      match merge (db m) (uploads m) processo with
      | None => (Falhou PdfError, m)
      | Some merged =>
          let pdf_document := imap carimba merged in
          let final_filename := final_filename_de processo timestamp_str in
          (Gerado final_filename,
           mk_mundo (db m) (uploads m) (<[final_filename := pdf_document]> (reports m)))
      end
  end.

End Relatorio.

(** ** Two requests to [adicionar_processo] at the same time

    Each request runs in its own thread with its own session.  What the
    threads share is the database, which they reach twice: the query for the
    submitted number, and the commit.  A thread is at one of three points. *)

Section Concorrencia.

Variable json_dumps : list (string * string) -> string.

Inductive fio :=
| Recebido (f : FormProcesso)
| Verificado (f : FormProcesso) (dia : Data.date) (status_inicial : string)
| Respondido (resp : resposta).

Definition apos_verifica (f : FormProcesso) (b : base) : fio :=
  match verifica f b with
  | inl resp => Respondido resp
  | inr (dia, status_inicial) => Verificado f dia status_inicial
  end.

(** One step of one thread against the shared database. *)
Inductive passo_fio (agora : Data.datetime) : base * fio -> base * fio -> Prop :=
| passo_verifica b f :
    passo_fio agora (b, Recebido f) (b, apos_verifica f b)
| passo_grava b f dia status_inicial :
    passo_fio agora (b, Verificado f dia status_inicial)
      ((grava json_dumps f dia status_inicial agora b).2,
       Respondido (grava json_dumps f dia status_inicial agora b).1).


End Concorrencia.

(** ** Vocabulary of the statements *)

(** The case numbers in use, and how many rows carry a given number. *)
Definition numeros (b : base) : list string :=
  Processo.numero_processo <$> processos b.


(** Referential integrity: every entry points to a case of the table, every
    document to an entry of the table. *)
Definition integra (b : base) : Prop :=
  (∀ a, a ∈ andamentos b → Andamento.processo_id a ∈ (Processo.id <$> processos b)) ∧
  (∀ d, d ∈ documentos b → Documento.andamento_id d ∈ (Andamento.id <$> andamentos b)).

(** The pages a document contributes when its file may be missing. *)
Definition paginas_presentes (pasta : gmap string ficheiro) (d : Documento.t)
    : list pagina :=
  match pasta !! Documento.filename d with
  | Some (Pdf paginas) => paginas
  | _ => []
  end.

(** No file of the documents is unreadable. *)
Definition legiveis (pasta : gmap string ficheiro) (docs : list Documento.t) : Prop :=
  ∀ d bytes, d ∈ docs → pasta !! Documento.filename d ≠ Some (Ilegivel bytes).

(** The number of messages of category [warning]. *)
Definition n_avisos (msgs : list (string * string)) : nat :=
  length (filter (fun cm => cm.1 = "warning") msgs).

(** A file name ends in [.pdf] whatever the case of its letters, said
    without lowering the name: the last four characters are a dot, then
    [p] or [P], [d] or [D], [f] or [F]. *)
Definition extensao_pdf (nome : string) : Prop :=
  ∃ raiz cp cd cf,
    nome = raiz +:+ String "."%char (String cp (String cd (String cf EmptyString)))
    ∧ (cp = "p"%char ∨ cp = "P"%char)
    ∧ (cd = "d"%char ∨ cd = "D"%char)
    ∧ (cf = "f"%char ∨ cf = "F"%char).

(** The two counts of the attachment claim, over the submitted files. *)
Definition n_pdf (files : list FileStorage.t) : nat :=
  length (filter (fun file => e_pdf (FileStorage.filename file) = true) files).

Definition n_com_nome (files : list FileStorage.t) : nat :=
  length (filter (fun file => FileStorage.filename file ≠ EmptyString) files).

(** Modelled on the words of the specification: [daysRemaining(case, asOf) =
    opened_at.date + initial_deadline_days + extension_days − asOf], an absent
    number of days counting as none, and the definition of a case that is
    expiring soon. *)
Definition daysRemaining (p : Processo.t) (asOf : Data.date) : Z :=
  Data.date_of (Processo.data_autuacao p)
  + default 0 (Processo.prazo_inicial_dias p)
  + default 0 (Processo.prorrogacao_dias p)
  - asOf.

Definition expiring_soon (p : Processo.t) (asOf : Data.date) : Prop :=
  encerrado (Processo.status p) = false ∧ 0 ≤ daysRemaining p asOf < 7.

(** A case with its initial deadline replaced. *)
Definition com_prazo_inicial (prazo : option Z) (p : Processo.t) : Processo.t :=
  Processo.mk (Processo.id p) (Processo.numero_processo p) (Processo.portaria p)
    (Processo.membros_comissao p) (Processo.tipo p) (Processo.servidor_a_apurar p)
    (Processo.servidor_investigado p) (Processo.servidor_cargo p)
    (Processo.servidor_matricula p) (Processo.resumo_fatos p) (Processo.status p)
    (Processo.data_autuacao p) prazo (Processo.prorrogacao_dias p)
    (Processo.data_atualizacao p).


(** The page a stamped page was before its folio was laid over it. *)
Definition sem_folio (page : pagina) : pagina :=
  mk_pagina (conteudo page) (removelast (caixas page)).

(** ** Vocabulary for the two threads *)

(** A thread has answered; a thread has answered that the case was added. *)
Definition respondeu (t : fio) : bool :=
  match t with
  | Respondido _ => true
  | _ => false
  end.

Definition venceu (t : fio) : bool :=
  match t with
  | Respondido resp =>
      match corpo_de resp with
      | Redirect Index => true
      | _ => false
      end
  | _ => false
  end.






(** What the loop of [index] counts: a case that is not closed, has an
    initial deadline that is neither absent nor zero, and whose remaining
    days are at least 0 and less than 7. *)
Definition prazo_contado (p : Processo.t) (hoje : Data.date) : Prop :=
  encerrado (Processo.status p) = false
  ∧ int_truthy (Processo.prazo_inicial_dias p) = true
  ∧ 0 ≤ daysRemaining p hoje < 7.

#[global] Instance prazo_contado_dec p hoje : Decision (prazo_contado p hoje).
Proof. unfold prazo_contado. apply _. Defined.

(** The opening day and the last day of the deadline are dates that exist. *)
Definition datas_validas (p : Processo.t) : Prop :=
  Data.valida (Data.date_of (Processo.data_autuacao p)) = true
  ∧ Data.valida (Data.date_of (Processo.data_autuacao p)
                 + default 0 (Processo.prazo_inicial_dias p)
                 + default 0 (Processo.prorrogacao_dias p)) = true.

(** The order of the entries of a report: not later than. *)
Definition ate (a b : Andamento.t) : Prop := Andamento.data a ≤ Andamento.data b.

(** ** Concrete data for the examples *)

Module Ex.

Definition json_dumps (l : list (string * string)) : string :=
  "[" +:+ foldr (fun nf acc => nf.1 +:+ ":" +:+ nf.2 +:+ ";" +:+ acc) "]" l.

Definition secure_filename (s : string) : string := Str.replace_char " " "_" s.

Definition relogio : relogio :=
  mk_relogio (739000 * Data.usec_por_dia + 36000000000) (fun _ => "20240501120000").

Definition vazio : mundo := mk_mundo (mk_base [] [] []) ∅ ∅.

Definition form (numero tipo : string) : FormProcesso :=
  mk_form_processo numero (Some 738000) tipo "Resumo" None ["Ana"; "Rui"]
    ["Presidente"; "Membro"] false None None None (Some 30) 5.

Definition capa (p : Processo.t) : list pagina :=
  [mk_pagina ("capa " +:+ Processo.numero_processo p) []].

Definition pg (s : string) : pagina := mk_pagina s [].

(** One case, number 1/2024 of type PAD, key 1, with its opening entry. *)
Definition um_caso : mundo :=
  (adicionar_processo json_dumps relogio (POST (form "1/2024" "PAD")) vazio).2.

(** A file input left empty, as a browser submits it. *)
Definition sem_nome : FileStorage.t := FileStorage.mk EmptyString (Pdf []).

Definition avancar (etapa : string) (files : list FileStorage.t) : FormAvancar :=
  mk_form_avancar (Some etapa) (Some "Despacho") files.

Definition laudo : FileStorage.t := FileStorage.mk "Laudo.PDF" (Pdf [pg "laudo 1"]).
Definition foto : FileStorage.t := FileStorage.mk "foto.png" (Ilegivel "PNG").

(** An open case of day 739000 with the given deadline and extension. *)
Definition caso (prazo prorrogacao : option Z) : Processo.t :=
  Processo.mk 1 "1/2024" None None "PAD" false None None None "Resumo" "Instrução"
    (Data.meia_noite 739000) prazo prorrogacao (Data.meia_noite 739000).

(** Two cases; the first has two entries and one document. *)
Definition dois_casos : mundo :=
  (adicionar_processo json_dumps relogio (POST (form "2/2024" "Sindicância"))
     ((avancar_etapa secure_filename relogio 1
         (avancar "Instrução" [laudo]) um_caso).2)).2.

(** One case with two entries, the later one stored first, each with one
    document; both files are in the upload folder. *)
Definition tardio : Andamento.t := Andamento.mk 1 "Instrução" None 200 1.
Definition inicial : Andamento.t := Andamento.mk 2 "Autuado" None 100 1.
Definition doc_tardio : Documento.t := Documento.mk 1 "b.pdf" 1.
Definition doc_inicial : Documento.t := Documento.mk 2 "a.pdf" 2.

Definition tabelas : base :=
  mk_base [caso (Some 30) (Some 5)] [tardio; inicial] [doc_tardio; doc_inicial].

Definition completo : mundo :=
  mk_mundo tabelas
    (<["a.pdf" := Pdf [pg "a1"; pg "a2"]]> (<["b.pdf" := Pdf [pg "b1"]]> ∅)) ∅.

(** The same case when the file of the later entry is gone. *)
Definition em_falta : mundo :=
  mk_mundo tabelas (<["a.pdf" := Pdf [pg "a1"; pg "a2"]]> ∅) ∅.

End Ex.

(** * Properties *)

(** ** Lookups in the tables *)

Lemma filter_by_numero_None b n :
  filter_by_numero b n = None ↔ n ∉ numeros b.
Proof.
  unfold filter_by_numero, numeros. induction (processos b) as [|p ps IH]; simpl.
  - split; [intros _; apply not_elem_of_nil | done].
  - destruct (String.eqb_spec (Processo.numero_processo p) n) as [->|Hne].
    + split; [done | intros []; apply elem_of_cons; by left].
    + rewrite IH, not_elem_of_cons. split; [by intros ?; split | by intros [_ ?]].
Qed.


Lemma existsb_numero b n :
  existsb (fun p => String.eqb (Processo.numero_processo p) n) (processos b) = true
  ↔ n ∈ numeros b.
Proof.
  unfold numeros. rewrite existsb_exists, list_elem_of_fmap. split.
  - intros (p & Hp & He). exists p. apply String.eqb_eq in He.
    split; [done | by apply list_elem_of_In].
  - intros (p & -> & Hp). exists p. split; [by apply list_elem_of_In | apply String.eqb_refl].
Qed.

Lemma get_processo_Some b pid p :
  get_processo b pid = Some p → Processo.id p = pid ∧ p ∈ processos b.
Proof.
  unfold get_processo. intros H. apply find_some in H as [Hin He].
  split; [lia | by apply list_elem_of_In].
Qed.

Lemma get_processo_None b pid :
  get_processo b pid = None ↔ pid ∉ (Processo.id <$> processos b).
Proof.
  unfold get_processo. induction (processos b) as [|p ps IH]; simpl.
  - split; [intros _; apply not_elem_of_nil | done].
  - destruct (Z.eqb_spec (Processo.id p) pid) as [->|Hne].
    + split; [done | intros []; apply elem_of_cons; by left].
    + rewrite IH, not_elem_of_cons. split; [by intros ?; split | by intros [_ ?]].
Qed.

(** Every list of the workflow table has a first stage, so the subscript
    [[0]] never raises. *)
Lemma etapas_de_head tipo : ∃ e, head (etapas_de tipo) = Some e.
Proof.
  unfold etapas_de. destruct (WORKFLOWS !! tipo) as [l|] eqn:E; simpl; [|eauto].
  apply elem_of_list_to_map_2 in E.
  repeat (apply elem_of_cons in E as [E|E]; [inversion E; subst; simpl; eauto|]).
  by apply elem_of_nil in E.
Qed.



(** ** Creating cases *)

Section Criacao.

Variable json_dumps : list (string * string) -> string.


Lemma verifica_novo f b dia :
  f_numero_processo f ∉ numeros b →
  f_data_autuacao f = Some dia →
  ∃ st, head (etapas_de (f_tipo f)) = Some st ∧ verifica f b = inr (dia, st).
Proof.
  intros Hnew Hd. unfold verifica.
  apply filter_by_numero_None in Hnew. rewrite Hnew, Hd.
  destruct (etapas_de_head (f_tipo f)) as [st Hst]. rewrite Hst. eauto.
Qed.

Lemma commit_processo_novo f dia st agora b :
  f_numero_processo f ∉ numeros b →
  commit_processo json_dumps f dia st agora b =
    Some (mk_base
            (processos b ++ [novo_processo json_dumps f dia st agora
                               (proximo_id (Processo.id <$> processos b))])
            (andamentos b ++ [primeiro_andamento st agora
                                (proximo_id (Andamento.id <$> andamentos b))
                                (proximo_id (Processo.id <$> processos b))])
            (documentos b)).
Proof.
  intros Hnew. unfold commit_processo.
  destruct (existsb _ _) eqn:E; [|done].
  by apply existsb_numero in E.
Qed.





(** A request with a new number and a date that parses inserts one case and
    one entry. *)
Lemma adicionar_novo r f m dia :
  f_numero_processo f ∉ numeros (db m) →
  f_data_autuacao f = Some dia →
  ∃ st, head (etapas_de (f_tipo f)) = Some st ∧
    adicionar_processo json_dumps r (POST f) m =
      (processo_adicionado,
       com_db (mk_base
                 (processos (db m) ++ [novo_processo json_dumps f dia st (utcnow r)
                                         (proximo_id (Processo.id <$> processos (db m)))])
                 (andamentos (db m) ++ [primeiro_andamento st (utcnow r)
                                          (proximo_id (Andamento.id <$> andamentos (db m)))
                                          (proximo_id (Processo.id <$> processos (db m)))])
                 (documentos (db m))) m).
Proof.
  intros Hnew Hd. destruct (verifica_novo _ _ _ Hnew Hd) as (st & Hst & Hv).
  exists st. split; [done|]. unfold adicionar_processo, grava.
  by rewrite Hv, commit_processo_novo.
Qed.






End Criacao.

(** ** Two requests at the same time *)

Section Corrida.

Variable json_dumps : list (string * string) -> string.
Variables agora1 agora2 : Data.datetime.
Variable n : string.


Lemma venceu_respondeu t : venceu t = true → respondeu t = true.
Proof. by destruct t. Qed.










(** A thread that runs alone does what [adicionar_processo] does. *)
Lemma fio_sozinho r f m :
  rtc (passo_fio json_dumps (utcnow r))
      (db m, Recebido f)
      (db ((adicionar_processo json_dumps r (POST f) m).2),
       Respondido ((adicionar_processo json_dumps r (POST f) m).1)).
Proof.
  eapply rtc_l; [apply passo_verifica|].
  unfold apos_verifica, adicionar_processo.
  destruct (verifica f (db m)) as [resp|[dia st]]; [apply rtc_refl|].
  eapply rtc_l; [apply passo_grava|].
  destruct (grava json_dumps f dia st (utcnow r) (db m)) as [resp b']. apply rtc_refl.
Qed.


End Corrida.



(** ** Advancing a case *)

Lemma truthy_false s : Str.truthy s = false ↔ s = EmptyString.
Proof.
  unfold Str.truthy. destruct (String.eqb_spec s EmptyString); simpl; split; done.
Qed.

Lemma truthy_true s : Str.truthy s = true ↔ s ≠ EmptyString.
Proof.
  unfold Str.truthy. destruct (String.eqb_spec s EmptyString); simpl; split; done.
Qed.

Lemma com_status_status etapa agora p :
  Processo.status (Processo.com_status etapa agora p) = etapa.
Proof.
  unfold Processo.com_status.
  by destruct (String.eqb_spec (Processo.status p) etapa).
Qed.

Lemma com_status_id etapa agora p :
  Processo.id (Processo.com_status etapa agora p) = Processo.id p.
Proof. unfold Processo.com_status. by destruct (String.eqb _ _). Qed.

(** After the status of the rows keyed [pid] has been rewritten, the lookup
    of [pid] finds the rewritten row. *)
Lemma get_processo_com_status b pid p etapa agora rest1 rest2 :
  get_processo b pid = Some p →
  get_processo
    (mk_base ((fun q => if decide (Processo.id q = Processo.id p)
                        then Processo.com_status etapa agora q else q) <$> processos b)
             rest1 rest2) pid
  = Some (Processo.com_status etapa agora p).
Proof.
  intros Hget. destruct (get_processo_Some _ _ _ Hget) as [Hid _].
  revert Hget. unfold get_processo; simpl. rewrite Hid. clear Hid.
  induction (processos b) as [|q qs IH]; simpl; [done|].
  destruct (Z.eqb_spec (Processo.id q) pid) as [He|Hne].
  - intros [= ->]. rewrite decide_True by done. simpl.
    by rewrite com_status_id, (proj2 (Z.eqb_eq _ _) He).
  - intros Hq. rewrite decide_False by done.
    rewrite (proj2 (Z.eqb_neq _ _) Hne). auto.
Qed.

(** ** File names *)

Lemma endswith_eq s suf :
  Str.endswith s suf =
    String.eqb s suf
    || match s with
       | EmptyString => false
       | String _ t => Str.endswith t suf
       end.
Proof. destruct s; unfold Str.endswith; fold Str.endswith; by destruct (String.eqb _ _). Qed.

Lemma endswith_spec s suf :
  Str.endswith s suf = true ↔ ∃ pre, s = pre +:+ suf.
Proof.
  induction s as [|c s IH]; rewrite endswith_eq, orb_true_iff, String.eqb_eq.
  - split.
    + intros [<-|?]; [by exists EmptyString | done].
    + intros [pre Hp]. left. destruct pre; simpl in Hp; [done|discriminate].
  - rewrite IH. split.
    + intros [<-|[pre ->]]; [by exists EmptyString | by exists (String c pre)].
    + intros [pre Hp]. destruct pre as [|c' pre]; simpl in Hp; [by left|].
      injection Hp as -> ->. right. by exists pre.
Qed.

Lemma str_app_cons c a b : String c a +:+ b = String c (a +:+ b).
Proof. reflexivity. Qed.

Lemma str_app_nil b : EmptyString +:+ b = b.
Proof. reflexivity. Qed.

Lemma lower_app a b : Str.lower (a +:+ b) = Str.lower a +:+ Str.lower b.
Proof.
  induction a as [|c a IH]; [done|].
  rewrite str_app_cons. simpl. by rewrite IH, str_app_cons.
Qed.

Lemma lower_split s : ∀ a b,
  Str.lower s = a +:+ b → ∃ a' b', s = a' +:+ b' ∧ Str.lower a' = a ∧ Str.lower b' = b.
Proof.
  induction s as [|c s IH]; intros a b H.
  - destruct a; [|discriminate].
    exists EmptyString, EmptyString. split_and!; [done|done|exact H].
  - destruct a as [|ca a].
    + exists EmptyString, (String c s). split_and!; [done|done|exact H].
    + rewrite str_app_cons in H. simpl in H. injection H as Hc Hs.
      destruct (IH _ _ Hs) as (a' & b' & -> & <- & <-).
      exists (String c a'), b'. split_and!; [done| |done]. simpl. by rewrite Hc.
Qed.

Lemma lower_char_ponto c : Str.lower_char c = "."%char ↔ c = "."%char.
Proof. destruct c as [[][][][][][][][]]; vm_compute; split; congruence. Qed.

Lemma lower_char_p c : Str.lower_char c = "p"%char ↔ c = "p"%char ∨ c = "P"%char.
Proof.
  destruct c as [[][][][][][][][]]; vm_compute; split;
    first [by auto | intros [|]; congruence | congruence].
Qed.

Lemma lower_char_d c : Str.lower_char c = "d"%char ↔ c = "d"%char ∨ c = "D"%char.
Proof.
  destruct c as [[][][][][][][][]]; vm_compute; split;
    first [by auto | intros [|]; congruence | congruence].
Qed.

Lemma lower_char_f c : Str.lower_char c = "f"%char ↔ c = "f"%char ∨ c = "F"%char.
Proof.
  destruct c as [[][][][][][][][]]; vm_compute; split;
    first [by auto | intros [|]; congruence | congruence].
Qed.

(** The test of the code is the test for a [.pdf] extension in any case. *)
Lemma e_pdf_extensao nome : e_pdf nome = true ↔ extensao_pdf nome.
Proof.
  unfold e_pdf, extensao_pdf. rewrite endswith_spec. split.
  - intros [pre Hp]. apply lower_split in Hp as (raiz & suf & -> & _ & Hsuf).
    destruct suf as [|c0 [|cp [|cd [|cf [|? ?]]]]]; simpl in Hsuf; try discriminate.
    injection Hsuf as H0 Hp Hd Hf.
    apply lower_char_ponto in H0 as ->. apply lower_char_p in Hp.
    apply lower_char_d in Hd. apply lower_char_f in Hf.
    by exists raiz, cp, cd, cf.
  - intros (raiz & cp & cd & cf & -> & Hp & Hd & Hf).
    exists (Str.lower raiz). rewrite lower_app. f_equal. simpl.
    rewrite (proj2 (lower_char_ponto _) eq_refl).
    apply lower_char_p in Hp as ->. apply lower_char_d in Hd as ->.
    by apply lower_char_f in Hf as ->.
Qed.

Lemma e_pdf_com_nome nome : e_pdf nome = true → nome ≠ EmptyString.
Proof. by intros H ->. Qed.

(** ** The loop over the uploaded files *)

Section Anexos.

Variable secure_filename : string -> string.

Lemma trata_ficheiro_vazio r e file :
  FileStorage.filename file = EmptyString →
  trata_ficheiro secure_filename r e file = e.
Proof. intros H. unfold trata_ficheiro. by rewrite H. Qed.

Lemma trata_ficheiro_nao_pdf r e file :
  FileStorage.filename file ≠ EmptyString →
  e_pdf (FileStorage.filename file) = false →
  trata_ficheiro secure_filename r e file =
    mk_envio (pasta e) (nomes e)
             (avisos e ++ [("warning", msg_ignorado (FileStorage.filename file))]).
Proof.
  intros Hne Hpdf. unfold trata_ficheiro.
  rewrite (proj2 (truthy_true _) Hne), Hpdf.
  by rewrite (proj2 (String.eqb_neq _ _) Hne).
Qed.

Lemma trata_ficheiro_pdf r e file :
  e_pdf (FileStorage.filename file) = true →
  trata_ficheiro secure_filename r e file =
    let filename :=
      secure_filename (now_strftime r (length (nomes e)) +:+ "_"
                         +:+ FileStorage.filename file) in
    mk_envio (<[filename := FileStorage.stream file]> (pasta e))
             (nomes e ++ [filename]) (avisos e).
Proof.
  intros Hpdf. pose proof (e_pdf_com_nome _ Hpdf) as Hne. unfold trata_ficheiro.
  rewrite (proj2 (truthy_true _) Hne), Hpdf.
  by rewrite (proj2 (String.eqb_neq _ _) Hne).
Qed.

(** The loop adds one document for each file with a [.pdf] name and one
    warning for each other file that has a name. *)
Lemma trata_ficheiros_contagem r files : ∀ e,
  let e' := trata_ficheiros secure_filename r e files in
  length (nomes e') = (length (nomes e) + n_pdf files)%nat ∧
  ∃ novos, avisos e' = avisos e ++ novos
           ∧ Forall (fun cm => cm.1 = "warning") novos
           ∧ (length novos + n_pdf files)%nat = n_com_nome files.
Proof.
  unfold trata_ficheiros, n_pdf, n_com_nome.
  induction files as [|file files IH]; intros e; simpl.
  - split; [lia|]. exists []. by rewrite app_nil_r.
  - rewrite !filter_cons.
    destruct (decide (FileStorage.filename file = EmptyString)) as [Hv|Hne].
    + rewrite trata_ficheiro_vazio by done.
      rewrite decide_False by (rewrite Hv; done).
      rewrite decide_False by (intros Hc; by apply Hc).
      apply IH.
    + rewrite (decide_True (P := _ ≠ _)) by done.
      destruct (decide (e_pdf (FileStorage.filename file) = true)) as [Hpdf|Hpdf].
      * rewrite trata_ficheiro_pdf by done. cbv zeta.
        destruct (IH (mk_envio
                        (<[secure_filename (now_strftime r (length (nomes e)) +:+ "_"
                             +:+ FileStorage.filename file) := FileStorage.stream file]> (pasta e))
                        (nomes e ++ [secure_filename (now_strftime r (length (nomes e)) +:+ "_"
                             +:+ FileStorage.filename file)])
                        (avisos e))) as [Hl (novos & Ha & Hw & Hc)].
        simpl in *. rewrite length_app in Hl; simpl in Hl.
        split; [simpl; lia|]. exists novos. split_and!; [done|done|simpl; lia].
      * rewrite trata_ficheiro_nao_pdf by (done || by apply not_true_is_false).
        destruct (IH (mk_envio (pasta e) (nomes e)
                        (avisos e ++ [("warning", msg_ignorado (FileStorage.filename file))])))
          as [Hl (novos & Ha & Hw & Hc)].
        simpl in *. split; [done|].
        exists (("warning", msg_ignorado (FileStorage.filename file)) :: novos).
        split_and!; [by rewrite Ha, <- app_assoc | by constructor | simpl; lia].
Qed.


Lemma insere_documentos_spec aid nomes : ∀ docs,
  ∃ novos, insere_documentos aid nomes docs = docs ++ novos
           ∧ Documento.filename <$> novos = nomes
           ∧ Forall (fun d => Documento.andamento_id d = aid) novos.
Proof.
  unfold insere_documentos. induction nomes as [|nome nomes IH]; intros docs; simpl.
  - exists []. by rewrite app_nil_r.
  - destruct (IH (docs ++ [Documento.mk (proximo_id (Documento.id <$> docs)) nome aid]))
      as (novos & -> & Hn & Ha).
    exists (Documento.mk (proximo_id (Documento.id <$> docs)) nome aid :: novos).
    split_and!; [by rewrite <- app_assoc | by rewrite fmap_cons, Hn | by constructor].
Qed.

Lemma n_avisos_app l k : n_avisos (l ++ k) = (n_avisos l + n_avisos k)%nat.
Proof. unfold n_avisos. by rewrite filter_app, length_app. Qed.

Lemma n_avisos_todos l : Forall (fun cm => cm.1 = "warning") l → n_avisos l = length l.
Proof.
  unfold n_avisos. induction 1 as [|cm l Hcm _ IH]; [done|].
  rewrite filter_cons, decide_True by done. simpl. by rewrite IH.
Qed.

Lemma n_com_nome_todos files :
  Forall (fun file => FileStorage.filename file ≠ EmptyString) files →
  n_com_nome files = length files.
Proof.
  unfold n_com_nome. induction 1 as [|file files Hf _ IH]; [done|].
  rewrite filter_cons, decide_True by done. simpl. by rewrite IH.
Qed.

Lemma avancar_etapa_404 r pid f m :
  get_processo (db m) pid = None →
  avancar_etapa secure_filename r pid f m = (mk_resposta NotFound [], m).
Proof. intros H. unfold avancar_etapa. by rewrite H. Qed.

Lemma avancar_etapa_sem_etapa r pid f m p :
  get_processo (db m) pid = Some p →
  f_nova_etapa f = None ∨ f_nova_etapa f = Some EmptyString →
  avancar_etapa secure_filename r pid f m =
    (mk_resposta (Redirect (DetalhesProcesso pid))
                 [("danger", "É necessário selecionar uma nova etapa.")], m).
Proof. intros H [Hn|Hn]; unfold avancar_etapa; by rewrite H, Hn. Qed.

Lemma avancar_etapa_ok r pid f m p etapa :
  get_processo (db m) pid = Some p →
  f_nova_etapa f = Some etapa → etapa ≠ EmptyString →
  avancar_etapa secure_filename r pid f m =
    let aid := proximo_id (Andamento.id <$> andamentos (db m)) in
    let e := trata_ficheiros secure_filename r (mk_envio (uploads m) [] []) (f_documentos f) in
    (mk_resposta (Redirect (DetalhesProcesso pid))
                 (avisos e ++ [("success", msg_avancado etapa)]),
     mk_mundo
       (mk_base
          ((fun q => if decide (Processo.id q = Processo.id p)
                     then Processo.com_status etapa (utcnow r) q else q)
             <$> processos (db m))
          (andamentos (db m) ++ [Andamento.mk aid etapa (f_descricao f) (utcnow r) pid])
          (insere_documentos aid (nomes e) (documentos (db m))))
       (pasta e) (reports m)).
Proof.
  intros H Hn Hne. unfold avancar_etapa.
  by rewrite H, Hn, (proj2 (truthy_true _) Hne).
Qed.

End Anexos.

(** ** What advancing a case leaves behind *)

(** C2.  [avancar_etapa] answers 404 for a key that is not in the table and
    asks for a stage when none or an empty one is submitted, and in both
    cases leaves the whole state as it was.  For an existing case and a
    non-empty stage name it sets the status of the case to exactly that name
    and appends exactly one entry, of that stage and for that case, with no
    condition on the name being a stage of the workflow of the case type. *)
Theorem avancar_etapa_estado (secure_filename : string -> string)
    (r : relogio) (pid : Z) (f : FormAvancar) (m : mundo) :
  (get_processo (db m) pid = None →
   avancar_etapa secure_filename r pid f m = (mk_resposta NotFound [], m))
  ∧ (∀ p, get_processo (db m) pid = Some p →
       f_nova_etapa f = None ∨ f_nova_etapa f = Some EmptyString →
       avancar_etapa secure_filename r pid f m =
         (mk_resposta (Redirect (DetalhesProcesso pid))
                      [("danger", "É necessário selecionar uma nova etapa.")], m))
  ∧ (∀ p etapa, get_processo (db m) pid = Some p →
       f_nova_etapa f = Some etapa → etapa ≠ EmptyString →
       let res := avancar_etapa secure_filename r pid f m in
       corpo_de (res.1) = Redirect (DetalhesProcesso pid)
       ∧ (∃ p', get_processo (db (res.2)) pid = Some p' ∧ Processo.status p' = etapa)
       ∧ andamentos (db (res.2)) =
           andamentos (db m)
           ++ [Andamento.mk (proximo_id (Andamento.id <$> andamentos (db m)))
                            etapa (f_descricao f) (utcnow r) pid]).
Proof.
  split_and!.
  - apply avancar_etapa_404.
  - apply avancar_etapa_sem_etapa.
  - intros p etapa Hget Hn Hne res. unfold res.
    rewrite (avancar_etapa_ok _ _ _ _ _ _ _ Hget Hn Hne). cbv zeta. simpl.
    split_and!; [done| |done].
    eexists. split; [by apply get_processo_com_status|apply com_status_status].
Qed.

Lemma avancar_etapa_estado_witness :
  avancar_etapa Ex.secure_filename Ex.relogio 7 (Ex.avancar "Instrução" []) Ex.um_caso
    = (mk_resposta NotFound [], Ex.um_caso)
  ∧ avancar_etapa Ex.secure_filename Ex.relogio 1
      (mk_form_avancar (Some EmptyString) None []) Ex.um_caso
    = (mk_resposta (Redirect (DetalhesProcesso 1))
                   [("danger", "É necessário selecionar uma nova etapa.")], Ex.um_caso)
  ∧ ("Fora do fluxo" ∉ etapas_de "PAD")
  ∧ ∃ p', get_processo
            (db ((avancar_etapa Ex.secure_filename Ex.relogio 1
                    (Ex.avancar "Fora do fluxo" []) Ex.um_caso).2)) 1 = Some p'
          ∧ Processo.status p' = "Fora do fluxo".
Proof.
  split_and!.
  - apply (avancar_etapa_estado Ex.secure_filename Ex.relogio 7
             (Ex.avancar "Instrução" []) Ex.um_caso). reflexivity.
  - eapply (avancar_etapa_estado Ex.secure_filename Ex.relogio 1
              (mk_form_avancar (Some EmptyString) None []) Ex.um_caso).
    + vm_compute. reflexivity.
    + right. reflexivity.
  - vm_compute. intros H. repeat (apply elem_of_cons in H as [H|H]; [discriminate|]).
    by apply elem_of_nil in H.
  - eapply (avancar_etapa_estado Ex.secure_filename Ex.relogio 1
              (Ex.avancar "Fora do fluxo" []) Ex.um_caso).
    + vm_compute. reflexivity.
    + reflexivity.
    + discriminate.
Defined.

(** C5, as amended.  For an existing case and a non-empty stage name, of the
    attached files those with a [.pdf] name (in any case of letters) become
    documents, exactly as many as there are, all linked to the new entry;
    each other file that has a name gives one warning; files without a name
    give nothing; and the request ends in the redirect of a successful
    advance.  When every attached file has a name, the warnings are the [N-K]
    of the claim. *)
Theorem avancar_etapa_anexos (secure_filename : string -> string)
    (r : relogio) (pid : Z) (f : FormAvancar) (m : mundo) (p : Processo.t)
    (etapa : string) :
  get_processo (db m) pid = Some p →
  f_nova_etapa f = Some etapa → etapa ≠ EmptyString →
  let res := avancar_etapa secure_filename r pid f m in
  let aid := proximo_id (Andamento.id <$> andamentos (db m)) in
  corpo_de (res.1) = Redirect (DetalhesProcesso pid)
  ∧ (last (flashed (res.1)) = Some ("success", msg_avancado etapa))
  ∧ (∃ a, last (andamentos (db (res.2))) = Some a ∧ Andamento.id a = aid)
  ∧ (∃ novos, documentos (db (res.2)) = documentos (db m) ++ novos
              ∧ length novos = n_pdf (f_documentos f)
              ∧ Forall (fun d => Documento.andamento_id d = aid) novos)
  ∧ n_avisos (flashed (res.1)) = (n_com_nome (f_documentos f) - n_pdf (f_documentos f))%nat
  ∧ (Forall (fun file => FileStorage.filename file ≠ EmptyString) (f_documentos f) →
     n_avisos (flashed (res.1)) = (length (f_documentos f) - n_pdf (f_documentos f))%nat).
Proof.
  intros Hget Hn Hne res aid. unfold res.
  rewrite (avancar_etapa_ok _ _ _ _ _ _ _ Hget Hn Hne). cbv zeta. simpl.
  destruct (trata_ficheiros_contagem secure_filename r (f_documentos f)
              (mk_envio (uploads m) [] [])) as [Hl (avs & Ha & Hw & Hc)].
  simpl in Hl, Ha.
  destruct (insere_documentos_spec aid
              (nomes (trata_ficheiros secure_filename r (mk_envio (uploads m) [] [])
                        (f_documentos f))) (documentos (db m)))
    as (novos & Hins & Hnomes & Hlig).
  assert (Hav : n_avisos (avisos (trata_ficheiros secure_filename r
                   (mk_envio (uploads m) [] []) (f_documentos f))
                 ++ [("success", msg_avancado etapa)])
                = (n_com_nome (f_documentos f) - n_pdf (f_documentos f))%nat).
  { rewrite n_avisos_app, Ha, n_avisos_todos by done.
    unfold n_avisos at 1. rewrite filter_cons, decide_False by done. simpl. lia. }
  split_and!.
  - done.
  - by rewrite last_snoc.
  - eexists. split; [by rewrite last_snoc|done].
  - exists novos. split_and!; [done| |done].
    rewrite <- Hl. by rewrite <- Hnomes, length_fmap.
  - done.
  - intros Hall. by rewrite Hav, n_com_nome_todos.
Qed.

Lemma avancar_etapa_anexos_witness :
  n_pdf [Ex.laudo; Ex.foto] = 1%nat
  ∧ ∃ novos,
      documentos (db ((avancar_etapa Ex.secure_filename Ex.relogio 1
                         (Ex.avancar "Instrução" [Ex.laudo; Ex.foto]) Ex.um_caso).2))
        = documentos (db Ex.um_caso) ++ novos
      ∧ length novos = 1%nat
      ∧ n_avisos (flashed ((avancar_etapa Ex.secure_filename Ex.relogio 1
                              (Ex.avancar "Instrução" [Ex.laudo; Ex.foto])
                              Ex.um_caso).1)) = 1%nat.
Proof.
  split; [reflexivity|].
  destruct (avancar_etapa_anexos Ex.secure_filename Ex.relogio 1
              (Ex.avancar "Instrução" [Ex.laudo; Ex.foto]) Ex.um_caso
              (novo_processo Ex.json_dumps (Ex.form "1/2024" "PAD") 738000 "Autuado"
                 (utcnow Ex.relogio) 1)
              "Instrução")
    as (_ & _ & _ & (novos & Hd & Hl & _) & Hav & _).
  - vm_compute. reflexivity.
  - reflexivity.
  - discriminate.
  - exists novos. split_and!; [exact Hd | exact Hl | exact Hav].
Defined.

(** The claim C5 as it is written fails on a file input left empty: one file
    is attached, none has a [.pdf] name, and yet no warning is flashed. *)
Lemma anexos_sem_nome_counterexample :
  length [Ex.sem_nome] = 1%nat
  ∧ n_pdf [Ex.sem_nome] = 0%nat
  ∧ n_avisos (flashed ((avancar_etapa Ex.secure_filename Ex.relogio 1
                          (Ex.avancar "Instrução" [Ex.sem_nome]) Ex.um_caso).1)) = 0%nat
  ∧ n_avisos (flashed ((avancar_etapa Ex.secure_filename Ex.relogio 1
                          (Ex.avancar "Instrução" [Ex.sem_nome]) Ex.um_caso).1))
    ≠ (length [Ex.sem_nome] - n_pdf [Ex.sem_nome])%nat.
Proof. split_and!; [reflexivity|reflexivity|reflexivity|vm_compute; discriminate]. Qed.



(** ** The initial stage, and keys that are new *)

Lemma proximo_id_maior ids x : x ∈ ids → x < proximo_id ids.
Proof.
  unfold proximo_id. induction ids as [|y ids IH]; simpl.
  - intros H. by apply elem_of_nil in H.
  - intros [->|H]%elem_of_cons; [lia|]. specialize (IH H). lia.
Qed.

Lemma proximo_id_novo ids : proximo_id ids ∉ ids.
Proof. intros H. apply proximo_id_maior in H. lia. Qed.

(** Under referential integrity the key of a new case has no entry yet. *)
Lemma andamentos_de_novo b :
  integra b → andamentos_de b (proximo_id (Processo.id <$> processos b)) = [].
Proof.
  intros [Hint _]. unfold andamentos_de.
  induction (andamentos b) as [|a l IH]; [done|].
  rewrite filter_cons, decide_False.
  - apply IH. intros x Hx. apply Hint. by apply elem_of_cons; right.
  - intros He. apply (proximo_id_novo (Processo.id <$> processos b)).
    rewrite <- He. apply Hint. by apply elem_of_cons; left.
Qed.

(** C6, as amended.  The stages of a type that is not in the table are the
    one-element list with "Autuado", not an error.  A request to
    [adicionar_processo] with a new number and a date that parses succeeds
    for every type, registered or not: it inserts one case, whose status is
    the first stage of its type when the type is registered and "Autuado"
    when it is not, and exactly one entry, for that case and of that stage. *)
Theorem adicionar_processo_etapa_inicial
    (json_dumps : list (string * string) -> string)
    (r : relogio) (f : FormProcesso) (m : mundo) (dia : Data.date) :
  (f_numero_processo f ∉ numeros (db m)) →
  f_data_autuacao f = Some dia →
  let res := adicionar_processo json_dumps r (POST f) m in
  let pid := proximo_id (Processo.id <$> processos (db m)) in
  res.1 = processo_adicionado
  ∧ (WORKFLOWS !! f_tipo f = None → etapas_de (f_tipo f) = ["Autuado"])
  ∧ ∃ p a,
      processos (db (res.2)) = processos (db m) ++ [p]
      ∧ Processo.id p = pid ∧ Processo.tipo p = f_tipo f
      ∧ (∀ etapas, WORKFLOWS !! f_tipo f = Some etapas →
           head etapas = Some (Processo.status p))
      ∧ (WORKFLOWS !! f_tipo f = None → Processo.status p = "Autuado")
      ∧ andamentos (db (res.2)) = andamentos (db m) ++ [a]
      ∧ Andamento.processo_id a = pid
      ∧ Andamento.etapa a = Processo.status p
      ∧ Andamento.descricao a = Some "Processo instaurado."
      ∧ documentos (db (res.2)) = documentos (db m)
      ∧ (integra (db m) → andamentos_de (db (res.2)) pid = [a]).
Proof.
  intros Hnew Hd res pid. unfold res.
  destruct (adicionar_novo json_dumps r f m dia Hnew Hd) as (st & Hst & ->). simpl.
  split; [done|]. split; [intros Hw; unfold etapas_de; by rewrite Hw|].
  eexists _, _. split_and!; try done.
  - intros etapas Hw. unfold etapas_de in Hst. by rewrite Hw in Hst.
  - intros Hw. unfold etapas_de in Hst. rewrite Hw in Hst. simpl in Hst.
    by injection Hst as <-.
  - intros Hint. unfold andamentos_de; simpl. rewrite filter_app.
    fold (andamentos_de (db m) pid). unfold pid. rewrite andamentos_de_novo by done.
    rewrite filter_cons, decide_True by done. done.
Qed.

Lemma adicionar_processo_etapa_inicial_witness :
  (adicionar_processo Ex.json_dumps Ex.relogio
     (POST (Ex.form "2/2024" "Sindicância")) Ex.um_caso).1 = processo_adicionado
  ∧ ∃ p, processos (db ((adicionar_processo Ex.json_dumps Ex.relogio
                           (POST (Ex.form "2/2024" "Sindicância")) Ex.um_caso).2))
           = processos (db Ex.um_caso) ++ [p]
         ∧ head ["Autuado"; "Apuração"; "Relatório Final"; "Arquivado"]
           = Some (Processo.status p).
Proof.
  destruct (adicionar_processo_etapa_inicial Ex.json_dumps Ex.relogio
              (Ex.form "2/2024" "Sindicância") Ex.um_caso 738000)
    as (Hok & _ & p & a & Hp & _ & _ & Hreg & _).
  - vm_compute. intros H. apply elem_of_cons in H as [H|H]; [discriminate|].
    by apply elem_of_nil in H.
  - reflexivity.
  - split; [exact Hok|]. exists p. split; [exact Hp|].
    apply Hreg. vm_compute. reflexivity.
Defined.

(** The claim C6 as it is written fails on a type that is not in the table:
    the request succeeds and the case starts at "Autuado". *)
Lemma tipo_desconhecido_counterexample :
  WORKFLOWS !! "Outro" = None
  ∧ (adicionar_processo Ex.json_dumps Ex.relogio
       (POST (Ex.form "3/2024" "Outro")) Ex.um_caso).1 = processo_adicionado
  ∧ (Processo.status <$>
       get_processo (db ((adicionar_processo Ex.json_dumps Ex.relogio
                            (POST (Ex.form "3/2024" "Outro")) Ex.um_caso).2)) 2)
    = Some "Autuado"
  ∧ length (andamentos_de
              (db ((adicionar_processo Ex.json_dumps Ex.relogio
                      (POST (Ex.form "3/2024" "Outro")) Ex.um_caso).2)) 2) = 1%nat.
Proof. split_and!; vm_compute; reflexivity. Qed.

(** ** Deleting a case *)

Lemma excluir_processo_ok pid m p :
  get_processo (db m) pid = Some p →
  excluir_processo pid m =
    (mk_resposta (Redirect Index) [("success", "Processo excluído com sucesso.")],
     com_db (delete_processo (db m) pid) m).
Proof.
  intros Hget. unfold excluir_processo. rewrite Hget.
  by destruct (get_processo_Some _ _ _ Hget) as [-> _].
Qed.

Lemma delete_processo_integra b pid : integra b → integra (delete_processo b pid).
Proof.
  intros [Ha Hd]. split; simpl.
  - intros a [Hne Hin]%list_elem_of_filter.
    destruct (proj1 (list_elem_of_fmap _ _ _) (Ha a Hin)) as (p & Hp & Hpin).
    apply list_elem_of_fmap. exists p. split; [done|].
    apply list_elem_of_filter. split; [congruence|done].
  - intros d [Hne Hin]%list_elem_of_filter.
    destruct (proj1 (list_elem_of_fmap _ _ _) (Hd d Hin)) as (a & Hda & Hain).
    apply list_elem_of_fmap. exists a. split; [done|].
    apply list_elem_of_filter. split; [|done].
    intros Hpid. apply Hne. rewrite Hda. apply list_elem_of_fmap_2.
    unfold andamentos_de. by apply list_elem_of_filter.
Qed.

(** C8.  Deleting an existing case removes the case, every entry of the case
    and every document of those entries from the tables: afterwards no entry
    points to the deleted key and no document points to an entry that
    belonged to the case.  Rows of other cases stay, referential integrity
    is kept (no row is left without its owner), and the upload folder is not
    touched. *)
Theorem excluir_processo_cascata (pid : Z) (m : mundo) (p : Processo.t) :
  get_processo (db m) pid = Some p →
  let res := excluir_processo pid m in
  corpo_de (res.1) = Redirect Index
  ∧ get_processo (db (res.2)) pid = None
  ∧ andamentos_de (db (res.2)) pid = []
  ∧ (∀ a d, a ∈ andamentos (db m) → Andamento.processo_id a = pid →
       (a ∉ andamentos (db (res.2)))
       ∧ (d ∈ documentos (db (res.2)) → Documento.andamento_id d ≠ Andamento.id a))
  ∧ (∀ a, a ∈ andamentos (db m) → Andamento.processo_id a ≠ pid →
       a ∈ andamentos (db (res.2)))
  ∧ (integra (db m) → integra (db (res.2)))
  ∧ uploads (res.2) = uploads m.
Proof.
  intros Hget res. unfold res. rewrite (excluir_processo_ok _ _ _ Hget). simpl.
  split_and!.
  - done.
  - apply get_processo_None. intros (q & Hq & Hin)%list_elem_of_fmap.
    apply list_elem_of_filter in Hin as [Hne _]. congruence.
  - unfold andamentos_de; simpl.
    induction (andamentos (db m)) as [|a l IH]; [done|].
    rewrite filter_cons. case_decide; [|done].
    rewrite filter_cons, decide_False; done.
  - intros a d Ha Hpid. split.
    + intros [Hne _]%list_elem_of_filter. done.
    + intros [Hne _]%list_elem_of_filter He. apply Hne. rewrite He.
      apply list_elem_of_fmap_2. unfold andamentos_de. by apply list_elem_of_filter.
  - intros a Ha Hne. by apply list_elem_of_filter.
  - apply delete_processo_integra.
  - done.
Qed.

Lemma excluir_processo_cascata_witness :
  andamentos_de (db ((excluir_processo 1 Ex.dois_casos).2)) 1 = []
  ∧ get_processo (db ((excluir_processo 1 Ex.dois_casos).2)) 1 = None
  ∧ length (andamentos_de (db Ex.dois_casos) 1) = 2%nat
  ∧ length (documentos (db Ex.dois_casos)) = 1%nat
  ∧ documentos (db ((excluir_processo 1 Ex.dois_casos).2)) = [].
Proof.
  destruct (excluir_processo_cascata 1 Ex.dois_casos
              (default (Ex.caso None None) (get_processo (db Ex.dois_casos) 1))
              eq_refl)
    as (_ & Hnone & Hands & _).
  split_and!; [exact Hands | exact Hnone | reflexivity | reflexivity | reflexivity].
Defined.

(** ** Referential integrity is kept by every route *)

Lemma adicionar_processo_integra json_dumps r req m :
  integra (db m) → integra (db ((adicionar_processo json_dumps r req m).2)).
Proof.
  intros Hint. destruct req as [|f]; [done|]. unfold adicionar_processo.
  destruct (verifica f (db m)) as [resp|[dia st]]; [done|].
  unfold grava, commit_processo.
  destruct (existsb _ _); [done|]. simpl.
  destruct Hint as [Ha Hd]. split; simpl.
  - intros a [Hin|Hin%list_elem_of_singleton]%elem_of_app; rewrite fmap_app, elem_of_app.
    + left. by apply Ha.
    + right. subst a. simpl. apply list_elem_of_here.
  - intros d Hin. rewrite fmap_app, elem_of_app. left. by apply Hd.
Qed.

Lemma avancar_etapa_integra secure_filename r pid f m :
  integra (db m) → integra (db ((avancar_etapa secure_filename r pid f m).2)).
Proof.
  intros Hint. unfold avancar_etapa.
  destruct (get_processo (db m) pid) as [p|] eqn:Hget; [|done].
  destruct (f_nova_etapa f) as [etapa|]; [|done].
  destruct (Str.truthy etapa); [|done]. simpl.
  destruct (get_processo_Some _ _ _ Hget) as [Hid Hp].
  destruct Hint as [Ha Hd]. split; simpl.
  - assert (Hfm : Processo.id <$>
              ((fun q => if decide (Processo.id q = Processo.id p)
                         then Processo.com_status etapa (utcnow r) q else q)
                 <$> processos (db m)) = Processo.id <$> processos (db m)).
    { rewrite <- list_fmap_compose. apply list_fmap_ext. intros i q _. simpl.
      case_decide; [apply com_status_id|done]. }
    rewrite Hfm.
    intros a [Hin|Hin%list_elem_of_singleton]%elem_of_app.
    + by apply Ha.
    + subst a. simpl. rewrite <- Hid. by apply list_elem_of_fmap_2.
  - destruct (insere_documentos_spec
                (proximo_id (Andamento.id <$> andamentos (db m)))
                (nomes (trata_ficheiros secure_filename r (mk_envio (uploads m) [] [])
                          (f_documentos f)))
                (documentos (db m))) as (novos & -> & _ & Hlig).
    intros d [Hin|Hin]%elem_of_app; rewrite fmap_app, elem_of_app.
    + left. by apply Hd.
    + right. rewrite Forall_forall in Hlig. rewrite (Hlig d Hin). simpl.
      apply list_elem_of_here.
Qed.

Lemma excluir_processo_integra pid m :
  integra (db m) → integra (db ((excluir_processo pid m).2)).
Proof.
  intros Hint. unfold excluir_processo.
  destruct (get_processo (db m) pid); [|done]. simpl.
  by apply delete_processo_integra.
Qed.

(** ** The deadline count *)

Lemma or_zero_default o : or_zero o = default 0 o.
Proof. destruct o as [n|]; unfold or_zero; simpl; [|done]. destruct (Z.eqb_spec n 0); simpl; lia. Qed.

Lemma valida_spec d : Data.valida d = true ↔ 1 ≤ d ≤ 3652059.
Proof. unfold Data.valida, Data.ord_min, Data.ord_max. rewrite andb_true_iff. lia. Qed.

Lemma mais_dias_valida d n :
  Data.valida d = true → Data.valida (d + n) = true → Data.mais_dias d n = Some (d + n).
Proof.
  intros Hd%valida_spec Hdn. pose proof (proj1 (valida_spec _) Hdn).
  unfold Data.mais_dias, Data.timedelta_days.
  replace ((-999999999 <=? n) && (n <=? 999999999)) with true; [simpl; by rewrite Hdn|].
  symmetry. apply andb_true_iff. lia.
Qed.

(** A case that is closed or has no usable initial deadline is not counted,
    and no date is computed for it. *)
Lemma prazo_vencendo_fora hoje limite p :
  encerrado (Processo.status p) = true ∨ int_truthy (Processo.prazo_inicial_dias p) = false →
  prazo_vencendo hoje limite p = Some false.
Proof.
  unfold prazo_vencendo. intros [->| ->]; simpl; [done|]. by rewrite andb_false_r.
Qed.

(** For dates that exist, the loop computes an answer for the case, and
    counts it exactly when [prazo_contado] holds. *)
Lemma prazo_vencendo_contado hoje p :
  datas_validas p →
  ∃ c, prazo_vencendo hoje (hoje + 7) p = Some c ∧ (c = true ↔ prazo_contado p hoje).
Proof.
  intros [Hv1 Hv2]. unfold prazo_vencendo, prazo_contado, daysRemaining.
  destruct (encerrado (Processo.status p)); simpl.
  { exists false. split; [done|]. split; [done|]. by intros [? _]. }
  destruct (int_truthy (Processo.prazo_inicial_dias p)); simpl.
  2:{ exists false. split; [done|]. split; [done|]. by intros (_ & ? & _). }
  rewrite or_zero_default, mais_dias_valida; [simpl|done|by rewrite Z.add_assoc].
  eexists. split; [done|]. rewrite andb_true_iff, Z.leb_le, Z.ltb_lt.
  split; [intros ?; split_and!; [done|done|lia|lia] | intros (_ & _ & ?); lia].
Qed.

Lemma conta_prazos_contados hoje ps :
  Forall datas_validas ps →
  conta_prazos hoje (hoje + 7) ps =
    Some (length (filter (fun p => prazo_contado p hoje) ps)).
Proof.
  induction 1 as [|p ps Hp _ IH]; [done|].
  cbn [conta_prazos]. rewrite IH.
  destruct (prazo_vencendo_contado hoje p Hp) as (c & -> & Hc). simpl.
  rewrite filter_cons. destruct c.
  - rewrite decide_True by (by apply Hc). done.
  - rewrite decide_False; [done|]. intros H%Hc. done.
Qed.

Lemma conta_prazos_app hoje limite antes depois :
  conta_prazos hoje limite (antes ++ depois) =
    (a ← conta_prazos hoje limite antes;
     d ← conta_prazos hoje limite depois;
     Some (a + d)%nat).
Proof.
  induction antes as [|p antes IH]; simpl.
  - by destruct (conta_prazos hoje limite depois).
  - destruct (prazo_vencendo hoje limite p) as [c|]; simpl; [|done].
    rewrite IH. destruct (conta_prazos hoje limite antes) as [a|]; simpl; [|done].
    destruct (conta_prazos hoje limite depois) as [d|]; simpl; [|done].
    f_equal. lia.
Qed.

Lemma conta_prazos_sem hoje limite antes p depois :
  prazo_vencendo hoje limite p = Some false →
  conta_prazos hoje limite (antes ++ p :: depois) =
  conta_prazos hoje limite (antes ++ depois).
Proof.
  intros Hp. rewrite !conta_prazos_app. cbn [conta_prazos]. rewrite Hp. simpl.
  destruct (conta_prazos hoje limite antes); simpl; [|done].
  by destruct (conta_prazos hoje limite depois).
Qed.

(** C7, as amended.  For a case whose opening day and last day exist as
    dates, the date the loop of [index] computes lies [daysRemaining] days
    after today, and the case is counted exactly when it is not closed, its
    initial deadline is present and not zero, and [0 ≤ daysRemaining < 7]; the
    count [index] shows is the number of such cases.  A case opened on day
    [D] with 30 days and an extension of 5 has 2 days left on day [D+33] and
    is counted, and has -1 on day [D+36] and is not. *)
Theorem prazos_vencendo_dashboard (hoje : Data.date) :
  (∀ p, datas_validas p →
        int_truthy (Processo.prazo_inicial_dias p) = true →
        ∃ data_final,
          Data.mais_dias (Data.date_of (Processo.data_autuacao p))
            (default 0 (Processo.prazo_inicial_dias p)
             + or_zero (Processo.prorrogacao_dias p)) = Some data_final
          ∧ data_final - hoje = daysRemaining p hoje)
  ∧ (∀ p, datas_validas p →
          ∃ c, prazo_vencendo hoje (hoje + 7) p = Some c
               ∧ (c = true ↔
                  encerrado (Processo.status p) = false
                  ∧ int_truthy (Processo.prazo_inicial_dias p) = true
                  ∧ 0 ≤ daysRemaining p hoje < 7))
  ∧ (∀ b, Data.valida hoje = true → Data.valida (hoje + 7) = true →
          Forall datas_validas (processos b) →
          ∃ t, index hoje b = Some t
               ∧ prazos_vencendo t =
                   length (filter (fun p => prazo_contado p hoje) (processos b)))
  ∧ (∀ p D,
       Data.date_of (Processo.data_autuacao p) = D →
       Processo.prazo_inicial_dias p = Some 30 →
       Processo.prorrogacao_dias p = Some 5 →
       encerrado (Processo.status p) = false →
       Data.valida D = true → Data.valida (D + 35) = true →
       daysRemaining p (D + 33) = 2
       ∧ prazo_vencendo (D + 33) (D + 33 + 7) p = Some true
       ∧ daysRemaining p (D + 36) = -1
       ∧ prazo_vencendo (D + 36) (D + 36 + 7) p = Some false).
Proof.
  split_and!.
  - intros p [Hv1 Hv2] _. eexists. rewrite or_zero_default.
    rewrite mais_dias_valida; [|done|by rewrite Z.add_assoc].
    split; [done|]. unfold daysRemaining. lia.
  - intros p Hp. apply (prazo_vencendo_contado hoje p Hp).
  - intros b Hh Hl Hall. unfold index.
    rewrite mais_dias_valida by done. simpl.
    rewrite conta_prazos_contados by done. simpl. by eexists.
  - intros p D HD Hpz Hpr Hst HvD HvD35.
    assert (Hdv : datas_validas p).
    { split; rewrite HD; [done|]. rewrite Hpz, Hpr. simpl.
      by replace (D + 30 + 5) with (D + 35) by lia. }
    assert (Hd33 : daysRemaining p (D + 33) = 2)
      by (unfold daysRemaining; rewrite HD, Hpz, Hpr; simpl; lia).
    assert (Hd36 : daysRemaining p (D + 36) = -1)
      by (unfold daysRemaining; rewrite HD, Hpz, Hpr; simpl; lia).
    split_and!; [done| |done|].
    + destruct (prazo_vencendo_contado (D + 33) p Hdv) as (c & -> & Hc).
      f_equal. apply Hc. split_and!; [done|by rewrite Hpz|lia|lia].
    + destruct (prazo_vencendo_contado (D + 36) p Hdv) as (c & -> & Hc).
      f_equal. destruct c; [|done]. destruct (proj1 Hc eq_refl) as (_ & _ & ?). lia.
Qed.

Lemma prazos_vencendo_dashboard_witness :
  daysRemaining (Ex.caso (Some 30) (Some 5)) (739000 + 33) = 2
  ∧ prazo_vencendo (739000 + 33) (739000 + 33 + 7) (Ex.caso (Some 30) (Some 5)) = Some true
  ∧ daysRemaining (Ex.caso (Some 30) (Some 5)) (739000 + 36) = -1
  ∧ prazo_vencendo (739000 + 36) (739000 + 36 + 7) (Ex.caso (Some 30) (Some 5)) = Some false
  ∧ ∃ t, index 739033 (mk_base [Ex.caso (Some 30) (Some 5); Ex.caso None None] [] [])
         = Some t
         ∧ prazos_vencendo t = 1%nat.
Proof.
  destruct (prazos_vencendo_dashboard 739033) as (_ & _ & Hindex & _).
  destruct (prazos_vencendo_dashboard 0) as (_ & _ & _ & Hex).
  destruct (Hex (Ex.caso (Some 30) (Some 5)) 739000)
    as (H1 & H2 & H3 & H4); try reflexivity.
  split_and!; [exact H1 | exact H2 | exact H3 | exact H4 |].
  destruct (Hindex (mk_base [Ex.caso (Some 30) (Some 5); Ex.caso None None] [] []))
    as (t & Ht & Hc); try reflexivity.
  - repeat constructor.
  - exists t. split; [exact Ht|]. rewrite Hc. reflexivity.
Defined.

(** The claim C7 as it is written fails on a case with an initial deadline
    of zero days and three days of extension, opened today and not closed:
    its remaining days are 3, within [0, 7), and the loop does not count
    it. *)
Lemma prazo_zero_counterexample :
  expiring_soon (Ex.caso (Some 0) (Some 3)) 739000
  ∧ daysRemaining (Ex.caso (Some 0) (Some 3)) 739000 = 3
  ∧ prazo_vencendo 739000 (739000 + 7) (Ex.caso (Some 0) (Some 3)) = Some false
  ∧ (prazos_vencendo <$> index 739000 (mk_base [Ex.caso (Some 0) (Some 3)] [] []))
    = Some 0%nat.
Proof.
  split_and!; [|reflexivity|reflexivity|reflexivity].
  split; [reflexivity|]. vm_compute. split; [discriminate|reflexivity].
Qed.

(** C9.  A case whose initial deadline is zero days is never counted, like
    the same case without an initial deadline: in the list of cases it can
    be replaced by that case, or left out, and the count of [index] is the
    same.  This is so even for a case that is not closed and whose remaining
    days by the formula are within [0, 7). *)
Theorem prazo_zero_como_ausente (hoje limite : Data.date) (p : Processo.t) :
  Processo.prazo_inicial_dias p = Some 0 →
  prazo_vencendo hoje limite p = Some false
  ∧ prazo_vencendo hoje limite (com_prazo_inicial None p) = Some false
  ∧ (∀ antes depois,
       conta_prazos hoje limite (antes ++ p :: depois) =
         conta_prazos hoje limite (antes ++ com_prazo_inicial None p :: depois)
       ∧ conta_prazos hoje limite (antes ++ p :: depois) =
           conta_prazos hoje limite (antes ++ depois))
  ∧ (∀ antes depois ands docs,
       prazos_vencendo <$> index hoje (mk_base (antes ++ p :: depois) ands docs) =
       prazos_vencendo <$>
         index hoje (mk_base (antes ++ com_prazo_inicial None p :: depois) ands docs)).
Proof.
  intros Hz.
  assert (H0 : prazo_vencendo hoje limite p = Some false)
    by (apply prazo_vencendo_fora; right; by rewrite Hz).
  assert (HN : ∀ l, prazo_vencendo hoje l (com_prazo_inicial None p) = Some false)
    by (intros l; apply prazo_vencendo_fora; by right).
  assert (H0' : ∀ l, prazo_vencendo hoje l p = Some false)
    by (intros l; apply prazo_vencendo_fora; right; by rewrite Hz).
  split_and!; [done|done| |].
  - intros antes depois. by rewrite !conta_prazos_sem.
  - intros antes depois ands docs. unfold index; simpl.
    destruct (Data.mais_dias hoje 7) as [l|]; simpl; [|done].
    rewrite !conta_prazos_sem by done.
    by destruct (conta_prazos hoje l (antes ++ depois)).
Qed.

Lemma prazo_zero_como_ausente_witness :
  expiring_soon (Ex.caso (Some 0) (Some 3)) 739000
  ∧ prazo_vencendo 739000 739007 (Ex.caso (Some 0) (Some 3)) = Some false
  ∧ prazo_vencendo 739000 739007 (com_prazo_inicial None (Ex.caso (Some 0) (Some 3)))
    = Some false.
Proof.
  destruct (prazo_zero_como_ausente 739000 739007 (Ex.caso (Some 0) (Some 3)) eq_refl)
    as (H1 & H2 & _).
  split_and!; [|exact H1|exact H2].
  split; [reflexivity|]. vm_compute. split; [discriminate|reflexivity].
Defined.

(** ** The order of the entries in the report *)

Lemma insere_por_data_perm a l : insere_por_data a l ≡ₚ a :: l.
Proof.
  induction l as [|b l IH]; simpl; [done|].
  destruct (Andamento.data a <=? Andamento.data b); [done|].
  rewrite IH. apply Permutation_swap.
Qed.

Lemma sorted_por_data_perm l : sorted_por_data l ≡ₚ l.
Proof.
  induction l as [|a l IH]; simpl; [done|].
  by rewrite insere_por_data_perm, IH.
Qed.

Lemma insere_por_data_sorted a l :
  StronglySorted ate l → StronglySorted ate (insere_por_data a l).
Proof.
  induction 1 as [|b l Hl IH Hb]; simpl.
  - repeat constructor.
  - destruct (Z.leb_spec (Andamento.data a) (Andamento.data b)) as [Hle|Hgt].
    + constructor; [by constructor|]. constructor; [done|].
      eapply Forall_impl; [exact Hb|]. unfold ate. intros c ?. lia.
    + constructor; [done|].
      rewrite insere_por_data_perm. constructor; [unfold ate; lia|done].
Qed.

Lemma sorted_por_data_sorted l : StronglySorted ate (sorted_por_data l).
Proof.
  induction l as [|a l IH]; simpl; [constructor|].
  by apply insere_por_data_sorted.
Qed.

(** Stability: the entries of one timestamp keep the order they had. *)
Lemma insere_por_data_estavel t a l :
  filter (fun x => Andamento.data x = t) (insere_por_data a l) =
  filter (fun x => Andamento.data x = t) (a :: l).
Proof.
  induction l as [|b l IH]; simpl; [done|].
  destruct (Z.leb_spec (Andamento.data a) (Andamento.data b)) as [Hle|Hgt]; [done|].
  rewrite (filter_cons _ b), IH, !(filter_cons _ a), (filter_cons _ b).
  destruct (decide (Andamento.data a = t)), (decide (Andamento.data b = t)); try done.
  lia.
Qed.

Lemma sorted_por_data_estavel t l :
  filter (fun x => Andamento.data x = t) (sorted_por_data l) =
  filter (fun x => Andamento.data x = t) l.
Proof.
  induction l as [|a l IH]; simpl; [done|].
  by rewrite insere_por_data_estavel, !filter_cons, IH.
Qed.

Lemma sorted_por_data_dois l a1 a2 :
  l ≡ₚ [a1; a2] → Andamento.data a1 < Andamento.data a2 →
  sorted_por_data l = [a1; a2].
Proof.
  intros Hp Hlt. symmetry in Hp. apply Permutation_length_2_inv in Hp as [-> | ->]; simpl.
  - by rewrite (proj2 (Z.leb_le _ _)) by lia.
  - by rewrite (proj2 (Z.leb_gt _ _)) by lia.
Qed.

(** Python documents [sorted] as a stable sort.  Two lists in ascending
    order of timestamps that keep, for every timestamp, the same entries in
    the same order are the same list: whatever algorithm [sorted] runs, its
    result is [sorted_por_data]. *)
Lemma ordenacao_estavel_unica l1 : ∀ l2,
  StronglySorted ate l1 → StronglySorted ate l2 →
  (∀ t, filter (fun a => Andamento.data a = t) l1 =
        filter (fun a => Andamento.data a = t) l2) →
  l1 = l2.
Proof.
  induction l1 as [|a l1 IH]; intros l2 Hs1 Hs2 Hf.
  - destruct l2 as [|b l2]; [done|].
    specialize (Hf (Andamento.data b)). rewrite filter_cons, decide_True in Hf by done.
    done.
  - destruct l2 as [|b l2].
    { specialize (Hf (Andamento.data a)). rewrite filter_cons, decide_True in Hf by done.
      done. }
    apply StronglySorted_inv in Hs1 as [Hs1 Ha], Hs2 as [Hs2 Hb].
    assert (Hab : Andamento.data a = Andamento.data b).
    { apply Z.le_antisymm.
      - pose proof (Hf (Andamento.data b)) as Hfb.
        rewrite (filter_cons _ b), decide_True in Hfb by done.
        assert (Hin : b ∈ a :: l1).
        { eapply (list_elem_of_filter (fun x => Andamento.data x = Andamento.data b)).
          rewrite Hfb. apply list_elem_of_here. }
        apply elem_of_cons in Hin as [->|Hin]; [done|].
        rewrite Forall_forall in Ha. by apply Ha.
      - pose proof (Hf (Andamento.data a)) as Hfa.
        rewrite (filter_cons _ a), decide_True in Hfa by done.
        assert (Hin : a ∈ b :: l2).
        { eapply (list_elem_of_filter (fun x => Andamento.data x = Andamento.data a)).
          rewrite <- Hfa. apply list_elem_of_here. }
        apply elem_of_cons in Hin as [->|Hin]; [done|].
        rewrite Forall_forall in Hb. by apply Hb. }
    pose proof (Hf (Andamento.data a)) as Hfa.
    rewrite !filter_cons, decide_True, decide_True in Hfa by done.
    injection Hfa as <- Hrest. f_equal. apply IH; [done|done|].
    intros t. specialize (Hf t). rewrite !filter_cons in Hf.
    destruct (decide (Andamento.data a = t)); [by injection Hf|done].
Qed.

Lemma sorted_por_data_unico l l' :
  StronglySorted ate l' →
  (∀ t, filter (fun a => Andamento.data a = t) l' =
        filter (fun a => Andamento.data a = t) l) →
  l' = sorted_por_data l.
Proof.
  intros Hs Hf. apply ordenacao_estavel_unica; [done|apply sorted_por_data_sorted|].
  intros t. by rewrite Hf, sorted_por_data_estavel.
Qed.

(** ** Merging and numbering *)

Lemma paginas_do_documento_legivel pasta d :
  (∀ bytes, pasta !! Documento.filename d ≠ Some (Ilegivel bytes)) →
  paginas_do_documento pasta d = Some (paginas_presentes pasta d).
Proof.
  intros Hleg. unfold paginas_do_documento, paginas_presentes.
  destruct (pasta !! Documento.filename d) as [[pgs|bytes]|]; [done| |done].
  by destruct (Hleg bytes).
Qed.

Lemma mapM_paginas pasta docs :
  legiveis pasta docs →
  mapM (paginas_do_documento pasta) docs = Some (paginas_presentes pasta <$> docs).
Proof.
  unfold legiveis. induction docs as [|d docs IH]; intros Hleg; [done|].
  cbn [mapM]. rewrite paginas_do_documento_legivel.
  - rewrite IH; [done|]. intros d' bytes Hd'. apply Hleg. by apply elem_of_cons; right.
  - intros bytes. apply Hleg. by apply elem_of_cons; left.
Qed.

Lemma sem_folio_carimba i pg : sem_folio (carimba i pg) = pg.
Proof. destruct pg as [c cx]. unfold sem_folio, carimba; simpl. by rewrite removelast_last. Qed.

Lemma sem_folio_imap l : sem_folio <$> imap carimba l = l.
Proof.
  apply list_eq. intros i. rewrite list_lookup_fmap, list_lookup_imap.
  destruct (l !! i); simpl; [|done]. by rewrite sem_folio_carimba.
Qed.

(** The labels of the stamped pages are the folios 1 to the number of
    pages, in the order of the pages. *)
Lemma folios_imap l :
  (fun pg => texto <$> last (caixas pg)) <$> imap carimba l =
  (fun k => Some ("Fl. " +:+ Str.format_03d k)) <$> seq 1 (length l).
Proof.
  apply list_eq. intros i. rewrite !list_lookup_fmap, list_lookup_imap.
  destruct (l !! i) as [pg|] eqn:E; simpl.
  - rewrite lookup_seq_lt by (by eapply lookup_lt_Some). simpl.
    rewrite last_snoc. simpl. by rewrite Nat.add_1_r.
  - rewrite lookup_seq_ge; [done|]. by apply lookup_ge_None.
Qed.

Section Relatorios.

Variable render_capa : Processo.t -> list pagina.

Lemma merge_legiveis b pasta p :
  legiveis pasta (documentos_em_ordem b (Processo.id p)) →
  merge render_capa b pasta p =
    Some (render_capa p
          ++ (d ← documentos_em_ordem b (Processo.id p); paginas_presentes pasta d)).
Proof.
  intros Hleg. unfold merge. rewrite mapM_paginas by done. simpl.
  do 2 f_equal. generalize (documentos_em_ordem b (Processo.id p)).
  intros l. induction l as [|d l IH]; simpl; [done|]. by f_equal.
Qed.

(** When no file of the case is unreadable the task writes the report:
    the cover, then the pages of the files that exist, each page stamped with
    its position. *)
Lemma generate_pdf_task_gerado ts pid m p :
  get_processo (db m) pid = Some p →
  legiveis (uploads m) (documentos_em_ordem (db m) pid) →
  generate_pdf_task render_capa ts pid m =
    (Gerado (final_filename_de p ts),
     mk_mundo (db m) (uploads m)
       (<[final_filename_de p ts :=
            imap carimba
              (render_capa p
               ++ (d ← documentos_em_ordem (db m) pid; paginas_presentes (uploads m) d))]>
          (reports m))).
Proof.
  intros Hget Hleg. destruct (get_processo_Some _ _ _ Hget) as [Hid _].
  unfold generate_pdf_task. rewrite Hget.
  rewrite merge_legiveis by (by rewrite Hid). by rewrite Hid.
Qed.

End Relatorios.

(** C3.  For every case whose cover is one page and none of whose files is
    unreadable, the task writes a report.  The entries are taken in ascending
    order of their timestamps, entries of one timestamp in the order they
    had; the pages of the report are the cover, then the pages of each
    document in that order of entries, the pages of a document in their own
    order; each page carries one more text box, right aligned, and the texts
    of these boxes are "Fl. 001", "Fl. 002", ... up to the number of pages,
    which is one more than the number of source pages.  In particular, for a
    case with two entries of timestamps [T1 < T2], in whichever order they are
    stored, each with one document, the pages are the cover, the pages of the
    document of [T1] and the pages of the document of [T2]. *)
Theorem relatorio_ordem_e_folios (render_capa : Processo.t -> list pagina)
    (ts : string) (pid : Z) (m : mundo) (p : Processo.t) (capa : pagina) :
  get_processo (db m) pid = Some p →
  render_capa p = [capa] →
  legiveis (uploads m) (documentos_em_ordem (db m) pid) →
  let ands := sorted_por_data (andamentos_de (db m) pid) in
  let fonte :=
    a ← ands; d ← documentos_de (db m) (Andamento.id a);
    paginas_presentes (uploads m) d in
  let nome := final_filename_de p ts in
  (ands ≡ₚ andamentos_de (db m) pid
   ∧ StronglySorted ate ands
   ∧ ∀ t, filter (fun a => Andamento.data a = t) ands =
          filter (fun a => Andamento.data a = t) (andamentos_de (db m) pid))
  ∧ ∃ paginas,
      generate_pdf_task render_capa ts pid m =
        (Gerado nome,
         mk_mundo (db m) (uploads m) (<[nome := paginas]> (reports m)))
      ∧ sem_folio <$> paginas = capa :: fonte
      ∧ length paginas = (1 + length fonte)%nat
      ∧ (∀ i pg, paginas !! i = Some pg →
           ∃ orig, (capa :: fonte) !! i = Some orig
                   ∧ conteudo pg = conteudo orig
                   ∧ caixas pg =
                       caixas orig
                       ++ [mk_caixa ("Fl. " +:+ Str.format_03d (i + 1)) 10 "helv"
                                    TEXT_ALIGN_RIGHT])
      ∧ (fun pg => texto <$> last (caixas pg)) <$> paginas =
          (fun k => Some ("Fl. " +:+ Str.format_03d k)) <$> seq 1 (1 + length fonte)
      ∧ (∀ a1 a2 d1 d2 pg1 pg2,
           andamentos_de (db m) pid ≡ₚ [a1; a2] →
           Andamento.data a1 < Andamento.data a2 →
           documentos_de (db m) (Andamento.id a1) = [d1] →
           documentos_de (db m) (Andamento.id a2) = [d2] →
           uploads m !! Documento.filename d1 = Some (Pdf pg1) →
           uploads m !! Documento.filename d2 = Some (Pdf pg2) →
           sem_folio <$> paginas = capa :: pg1 ++ pg2).
Proof.
  intros Hget Hcapa Hleg ands fonte nome.
  split; [split_and!|].
  - apply sorted_por_data_perm.
  - apply sorted_por_data_sorted.
  - intros t. apply sorted_por_data_estavel.
  - rewrite (generate_pdf_task_gerado render_capa ts pid m p Hget Hleg), Hcapa.
    assert (Hfonte : (d ← documentos_em_ordem (db m) pid; paginas_presentes (uploads m) d)
                     = fonte).
    { unfold documentos_em_ordem, fonte, ands.
      induction (sorted_por_data (andamentos_de (db m) pid)) as [|a l IH]; [done|].
      cbn [mbind list_bind]. rewrite bind_app. f_equal. exact IH. }
    rewrite Hfonte. eexists. split; [reflexivity|].
    split_and!.
    + apply sem_folio_imap.
    + by rewrite length_imap.
    + intros i pg Hi. rewrite list_lookup_imap in Hi.
      destruct (([capa] ++ fonte) !! i) as [orig|] eqn:E; [|done].
      injection Hi as <-. exists orig. by split_and!.
    + rewrite folios_imap. done.
    + intros a1 a2 d1 d2 pg1 pg2 Hperm Hlt Hd1 Hd2 Hf1 Hf2.
      rewrite sem_folio_imap. simpl. f_equal.
      unfold fonte, ands. rewrite (sorted_por_data_dois _ a1 a2 Hperm Hlt).
      cbn [mbind list_bind]. rewrite Hd1, Hd2. cbn [mbind list_bind].
      unfold paginas_presentes. rewrite Hf1, Hf2. by rewrite !app_nil_r.
Qed.

Lemma relatorio_ordem_e_folios_witness :
  andamentos_de (db Ex.completo) 1 = [Ex.tardio; Ex.inicial]
  ∧ ∃ paginas,
      generate_pdf_task Ex.capa "20240501_120000" 1 Ex.completo =
        (Gerado "processo_1-2024_20240501_120000.pdf",
         mk_mundo (db Ex.completo) (uploads Ex.completo)
           (<["processo_1-2024_20240501_120000.pdf" := paginas]> (reports Ex.completo)))
      ∧ sem_folio <$> paginas =
          Ex.pg "capa 1/2024" :: [Ex.pg "a1"; Ex.pg "a2"] ++ [Ex.pg "b1"]
      ∧ (fun pg => texto <$> last (caixas pg)) <$> paginas =
          [Some "Fl. 001"; Some "Fl. 002"; Some "Fl. 003"; Some "Fl. 004"].
Proof.
  split; [reflexivity|].
  destruct (relatorio_ordem_e_folios Ex.capa "20240501_120000" 1 Ex.completo
              (Ex.caso (Some 30) (Some 5)) (Ex.pg "capa 1/2024"))
    as (_ & paginas & Hger & _ & _ & _ & Hfolios & Hdois).
  - reflexivity.
  - reflexivity.
  - intros d bytes Hd. vm_compute in Hd.
    repeat (apply elem_of_cons in Hd as [->|Hd]; [by vm_compute|]).
    by apply elem_of_nil in Hd.
  - exists paginas. split_and!.
    + exact Hger.
    + apply (Hdois Ex.inicial Ex.tardio Ex.doc_inicial Ex.doc_tardio).
      * vm_compute. apply Permutation_swap.
      * reflexivity.
      * reflexivity.
      * reflexivity.
      * reflexivity.
      * reflexivity.
    + exact Hfolios.
Defined.

(** C4.  A document whose file is not in the upload folder contributes no
    page and does not stop the task: when no file of the case is unreadable,
    the report is written with the cover followed by the pages of the files
    that exist.  In particular, for a case with two documents of which one
    file is missing and the other is a readable PDF, the report is written
    and holds the cover and then the pages of that other file only. *)
Theorem relatorio_ficheiro_em_falta (render_capa : Processo.t -> list pagina)
    (ts : string) (pid : Z) (m : mundo) (p : Processo.t) :
  get_processo (db m) pid = Some p →
  let docs := documentos_em_ordem (db m) pid in
  let nome := final_filename_de p ts in
  (legiveis (uploads m) docs →
   ∃ paginas,
     generate_pdf_task render_capa ts pid m =
       (Gerado nome, mk_mundo (db m) (uploads m) (<[nome := paginas]> (reports m)))
     ∧ sem_folio <$> paginas =
         render_capa p ++ (d ← docs; paginas_presentes (uploads m) d)
     ∧ ∀ d, uploads m !! Documento.filename d = None →
            paginas_presentes (uploads m) d = [])
  ∧ (∀ d1 d2 pgs,
       docs = [d1; d2] →
       (uploads m !! Documento.filename d1 = None
        ∧ uploads m !! Documento.filename d2 = Some (Pdf pgs))
       ∨ (uploads m !! Documento.filename d1 = Some (Pdf pgs)
          ∧ uploads m !! Documento.filename d2 = None) →
       ∃ paginas,
         generate_pdf_task render_capa ts pid m =
           (Gerado nome, mk_mundo (db m) (uploads m) (<[nome := paginas]> (reports m)))
         ∧ sem_folio <$> paginas = render_capa p ++ pgs).
Proof.
  intros Hget docs nome. split.
  - intros Hleg. rewrite (generate_pdf_task_gerado render_capa ts pid m p Hget Hleg).
    eexists. split; [reflexivity|]. split; [apply sem_folio_imap|].
    intros d Hd. unfold paginas_presentes. by rewrite Hd.
  - intros d1 d2 pgs Hdocs Hcaso.
    assert (Hleg : legiveis (uploads m) (documentos_em_ordem (db m) pid)).
    { fold docs. rewrite Hdocs. intros d bytes Hd.
      apply elem_of_cons in Hd as [->|Hd]; [|apply list_elem_of_singleton in Hd as ->];
        destruct Hcaso as [[H1 H2]|[H1 H2]]; congruence. }
    rewrite (generate_pdf_task_gerado render_capa ts pid m p Hget Hleg).
    eexists. split; [reflexivity|]. rewrite sem_folio_imap. f_equal.
    fold docs. rewrite Hdocs. cbn [mbind list_bind]. unfold paginas_presentes.
    destruct Hcaso as [[-> ->]|[-> ->]]; simpl; by rewrite ?app_nil_r.
Qed.

Lemma relatorio_ficheiro_em_falta_witness :
  uploads Ex.em_falta !! "b.pdf" = None
  ∧ ∃ paginas,
      generate_pdf_task Ex.capa "20240501_120000" 1 Ex.em_falta =
        (Gerado "processo_1-2024_20240501_120000.pdf",
         mk_mundo (db Ex.em_falta) (uploads Ex.em_falta)
           (<["processo_1-2024_20240501_120000.pdf" := paginas]> (reports Ex.em_falta)))
      ∧ sem_folio <$> paginas = [Ex.pg "capa 1/2024"] ++ [Ex.pg "a1"; Ex.pg "a2"].
Proof.
  split; [reflexivity|].
  destruct (relatorio_ficheiro_em_falta Ex.capa "20240501_120000" 1 Ex.em_falta
              (Ex.caso (Some 30) (Some 5)) eq_refl) as [_ Hdois].
  apply (Hdois Ex.doc_inicial Ex.doc_tardio [Ex.pg "a1"; Ex.pg "a2"]).
  - reflexivity.
  - right. split; reflexivity.
Defined.
